(** * scripts/prepare_nightly_release.py: a shallow embedding

    The script bumps the version of the package to a nightly version:
    it parses the version given on the command line, rewrites
    [rasa/version.py] and [pyproject.toml], and, when the working tree is
    on an allowed branch, tags the commit and pushes the tag.

    The script is a sequence of effects on three things outside of it:
    the file system, the standard output and the git repository reached
    through [subprocess].  The embedding threads a [World] through a
    small state-and-exception monad; an exception keeps the effects that
    happened before it was raised, as in Python.

    Python [str] values are kept as their UTF-8 encoding in a Rocq
    [string], so that ASCII literals of the source are the same literals
    here, [bytes.decode()] is the validation of the encoding and
    [str.encode()] is the identity. *)

From Stdlib Require Import ZArith NArith Ascii String List.
From stdpp Require Import base option gmap strings list pretty.

Set Warnings "-register-all".

Local Open Scope Z_scope.
Local Open Scope string_scope.

(** ** Characters the source writes with escapes *)

Definition nl : string := String "010"%char EmptyString.
Definition dquote : string := String "034"%char EmptyString.
Definition esc : string := String "027"%char EmptyString.

(** ** Exceptions and outcomes *)

Inductive exn : Type :=
| InvalidVersion          (* packaging.version.InvalidVersion *)
| TypeError
| KeyError (key : string)
| FileNotFoundError
| PermissionError
| IsADirectoryError
| UnicodeDecodeError
| IndexError
| TomlDecodeError         (* toml.TomlDecodeError *)
| CalledProcessError      (* subprocess.CalledProcessError *)
| SystemExit (code : Z).  (* raised by sys.exit *)

Inductive outcome (A : Type) : Type :=
| Ret (a : A)
| Raise (e : exn).
Arguments Ret {A} a.
Arguments Raise {A} e.

(** ** Parsed TOML data

    [toml.load] gives a [dict] whose values are [str], [int], [bool],
    [float], dates and times, [list] and nested [dict].  A Python dict
    keeps its keys in insertion order, and [toml.dump] writes them in
    that order, so a dict is an association list. *)

Inductive value : Type :=
| VStr (s : string)
| VInt (z : Z)
| VBool (b : bool)
| VOther (repr : string)          (* float, datetime, date, time *)
| VList (l : list value)
| VDict (d : list (string * value)).

Definition dict : Type := list (string * value).

(** [d.get(k)]-style lookup: the first binding of [k]. *)
Fixpoint dict_get (k : string) (d : dict) : option value :=
  match d with
  | [] => None
  | (k', v) :: d' => if String.eqb k k' then Some v else dict_get k d'
  end.

(** [d[k] = v] on a dict: an existing key keeps its place, a new key goes
    last. *)
Fixpoint dict_set (k : string) (v : value) (d : dict) : dict :=
  match d with
  | [] => [(k, v)]
  | (k', v') :: d' =>
      if String.eqb k k' then (k', v) :: d' else (k', v') :: dict_set k v d'
  end.

(** [o[k]] with a [str] key: only a dict can be indexed by a string, every
    other value raises [TypeError]; a dict without the key raises
    [KeyError]. *)
Definition getitem (o : value) (k : string) : outcome value :=
  match o with
  | VDict d =>
      match dict_get k d with
      | Some v => Ret v
      | None => Raise (KeyError k)
      end
  | _ => Raise TypeError
  end.

(** [o[k] = v] with a [str] key. *)
Definition setitem (o : value) (k : string) (v : value) : outcome value :=
  match o with
  | VDict d => Ret (VDict (dict_set k v d))
  | _ => Raise TypeError
  end.

(** The value reached from [o] by indexing with the keys of [path] in turn,
    when every step is a dict that has the key. *)
Fixpoint lookup_path (path : list string) (o : value) : option value :=
  match path with
  | [] => Some o
  | k :: path' =>
      match o with
      | VDict d =>
          match dict_get k d with
          | Some v => lookup_path path' v
          | None => None
          end
      | _ => None
      end
  end.

(** ** UTF-8 and [str.strip] *)

Definition codes (s : string) : list N :=
  map N_of_ascii (list_ascii_of_string s).

Definition of_codes (l : list N) : string :=
  string_of_list_ascii (map ascii_of_N l).

Definition in_range (lo hi b : N) : bool := ((lo <=? b) && (b <=? hi))%N.

Definition cont (b : N) : bool := in_range 128 191 b.

(** Well-formed UTF-8 byte sequences (Unicode, table 3-7), which is what the
    strict decoder of [bytes.decode()] accepts. *)
Fixpoint utf8_valid (l : list N) : bool :=
  match l with
  | [] => true
  | b0 :: l1 =>
      if (b0 <? 128)%N then utf8_valid l1
      else match l1 with
      | [] => false
      | b1 :: l2 =>
          if in_range 194 223 b0 then cont b1 && utf8_valid l2
          else match l2 with
          | [] => false
          | b2 :: l3 =>
              if in_range 224 239 b0 then
                (if (b0 =? 224)%N then in_range 160 191 b1
                 else if (b0 =? 237)%N then in_range 128 159 b1
                 else cont b1)
                && cont b2 && utf8_valid l3
              else match l3 with
              | [] => false
              | b3 :: l4 =>
                  in_range 240 244 b0
                  && (if (b0 =? 240)%N then in_range 144 191 b1
                      else if (b0 =? 244)%N then in_range 128 143 b1
                      else cont b1)
                  && cont b2 && cont b3 && utf8_valid l4
              end
          end
      end
  end.

(** [bytes.decode()]: UTF-8, errors are strict. *)
Definition decode (b : string) : outcome string :=
  if utf8_valid (codes b) then Ret b else Raise UnicodeDecodeError.

(** The ASCII characters for which [str.isspace] holds: tab, line feed,
    vertical tab, form feed, carriage return, the four separators
    0x1C-0x1F and the space. *)
Definition ascii_space (b : N) : bool :=
  in_range 9 13 b || in_range 28 32 b.

(** Strips the white space at the head of a list of UTF-8 bytes.  Beyond
    ASCII, [str.isspace] holds for U+0085, U+00A0, U+1680, U+2000-U+200A,
    U+2028, U+2029, U+202F, U+205F and U+3000. *)
Fixpoint lstrip_codes (l : list N) : list N :=
  match l with
  | [] => []
  | b0 :: l1 =>
      if ascii_space b0 then lstrip_codes l1
      else match l1 with
      | [] => l
      | b1 :: l2 =>
          if (b0 =? 194)%N && ((b1 =? 133)%N || (b1 =? 160)%N)
          then lstrip_codes l2
          else match l2 with
          | [] => l
          | b2 :: l3 =>
              if ((b0 =? 225)%N && (b1 =? 154)%N && (b2 =? 128)%N)
                 || ((b0 =? 226)%N && (b1 =? 128)%N
                     && (in_range 128 138 b2 || (b2 =? 168)%N
                         || (b2 =? 169)%N || (b2 =? 175)%N))
                 || ((b0 =? 226)%N && (b1 =? 129)%N && (b2 =? 159)%N)
                 || ((b0 =? 227)%N && (b1 =? 128)%N && (b2 =? 128)%N)
              then lstrip_codes l3
              else l
          end
      end
  end.

(** The same from the end, on the reversed list: the bytes of a character
    come last byte first. *)
Fixpoint rstrip_rev (l : list N) : list N :=
  match l with
  | [] => []
  | b0 :: l1 =>
      if ascii_space b0 then rstrip_rev l1
      else match l1 with
      | [] => l
      | b1 :: l2 =>
          if (b1 =? 194)%N && ((b0 =? 133)%N || (b0 =? 160)%N)
          then rstrip_rev l2
          else match l2 with
          | [] => l
          | b2 :: l3 =>
              if ((b2 =? 225)%N && (b1 =? 154)%N && (b0 =? 128)%N)
                 || ((b2 =? 226)%N && (b1 =? 128)%N
                     && (in_range 128 138 b0 || (b0 =? 168)%N
                         || (b0 =? 169)%N || (b0 =? 175)%N))
                 || ((b2 =? 226)%N && (b1 =? 129)%N && (b0 =? 159)%N)
                 || ((b2 =? 227)%N && (b1 =? 128)%N && (b0 =? 128)%N)
              then rstrip_rev l3
              else l
          end
      end
  end.

(** [s.strip()] *)
Definition strip (s : string) : string :=
  of_codes (rev (rstrip_rev (rev (lstrip_codes (codes s))))).


(** ** Paths

    A [pathlib.Path] is kept as its string form, [str(path)]; the paths
    are POSIX paths.  A path is a root ([/], [//] or none) and the
    components between the slashes, of which pathlib drops the empty ones
    and those that are [.]; the path without root and components is
    written [.]. *)

Fixpoint split_on (sep : ascii) (s : string) : list string :=
  match s with
  | EmptyString => [EmptyString]
  | String c s' =>
      if Ascii.eqb c sep then EmptyString :: split_on sep s'
      else match split_on sep s' with
           | [] => [String c EmptyString]
           | h :: t => String c h :: t
           end
  end.

Definition path_parts (s : string) : list string :=
  List.filter (fun c => negb (String.eqb c "" || String.eqb c "."))
    (split_on "/" s).

(** Two slashes at the head are kept, three or more are one. *)
Definition path_root (s : string) : string :=
  if String.prefix "//" s && negb (String.prefix "///" s) then "//"
  else if String.prefix "/" s then "/"
  else "".

Definition path_str (root : string) (parts : list string) : string :=
  if String.eqb root "" && Nat.eqb (length parts) 0 then "."
  else root ++ String.concat "/" parts.

(** [str(Path(root) / p)]: an absolute [p] takes the place of [root], a
    relative one adds its components. *)
Definition joinpath (root p : string) : string :=
  if String.prefix "/" p then path_str (path_root p) (path_parts p)
  else path_str (path_root root) (path_parts root ++ path_parts p)%list.

(** ** What the script imports and calls

    The packages [pep440_version_utils] and [toml], the [git] program and
    the place of the script on disk are outside of the repository; the
    script is modelled over any behaviour of theirs. *)

Class Env : Type := {
  (** [pep440_version_utils.Version]: the objects, the constructor applied
      to what [argparse] stored ([None] when the flag is absent, a [str]
      otherwise), and [str()]. *)
  Version : Type;
  Version_new : option string -> outcome Version;
  Version_str : Version -> string;
  (** [toml.load] on a file with the given content, and the text
      [toml.dump] makes of a dict before it writes it; either can raise. *)
  toml_loads : string -> outcome dict;
  toml_dumps : dict -> outcome string;
  (** The git repository with its remote, and a child process run on it:
      the exit status, the bytes on its standard output, the repository
      afterwards. *)
  Repo : Type;
  subprocess_run : list string -> Repo -> Z * string * Repo;
  (** [Path(os.path.dirname(__file__)).parent] *)
  project_root_path : string
}.

(** Why a path cannot be opened. *)
Inductive oserror : Type := ENOENT | EACCES | EISDIR.

Definition exn_of_oserror (e : oserror) : exn :=
  match e with
  | ENOENT => FileNotFoundError
  | EACCES => PermissionError
  | EISDIR => IsADirectoryError
  end.

Record World `{Env} : Type := mkWorld {
  files : gmap string string;      (* the regular files that can be read *)
  rdeny : gmap string oserror;     (* what else is at a path: a directory,
                                      a file that may not be read *)
  wdeny : gmap string oserror;     (* paths that open("w") refuses *)
  stdout : list string;            (* one entry for each print *)
  repo : Repo;
  calls : list (list string)       (* argv of every child process, in order *)
}.

(** ** The monad: a world goes in, an outcome and a world come out *)

Definition M `{Env} (A : Type) : Type := World -> outcome A * World.

Definition ret `{Env} {A} (a : A) : M A := fun w => (Ret a, w).

Definition raise `{Env} {A} (e : exn) : M A := fun w => (Raise e, w).

Definition bind `{Env} {A B} (m : M A) (k : A -> M B) : M B :=
  fun w =>
    match m w with
    | (Ret a, w') => k a w'
    | (Raise e, w') => (Raise e, w')
    end.

(** [try: body except ...]: [handler e] is the clause that matches [e], if
    any; it runs in the world the body left. *)
Definition try_except `{Env} {A} (body : M A) (handler : exn -> option (M A))
  : M A :=
  fun w =>
    match body w with
    | (Ret a, w') => (Ret a, w')
    | (Raise e, w') =>
        match handler e with
        | Some h => h w'
        | None => (Raise e, w')
        end
    end.

Definition lift `{Env} {A} (o : outcome A) : M A := fun w => (o, w).

Notation "x <- m ;; k" := (bind m (fun x => k))
  (at level 100, m at next level, right associativity).
Notation "m ;; k" := (bind m (fun _ => k))
  (at level 100, right associativity).

Definition obind {A B} (o : outcome A) (k : A -> outcome B) : outcome B :=
  match o with
  | Ret a => k a
  | Raise e => Raise e
  end.

Notation "'let?' x := o 'in' k" := (obind o (fun x => k))
  (at level 100, x name, o at next level, right associativity).

(** ** Built-ins *)

(** The world after a line went to the standard output. *)
Definition after_print `{Env} (s : string) (w : World) : World :=
  mkWorld _ (files w) (rdeny w) (wdeny w) (stdout w ++ [s]) (repo w) (calls w).

(** [print(s)] *)
Definition print `{Env} (s : string) : M unit :=
  fun w => (Ret tt, after_print s w).

(** [sys.exit(code)] *)
Definition sys_exit `{Env} {A} (code : Z) : M A := raise (SystemExit code).

(** The world after the file at [path] was replaced by [s]. *)
Definition after_write `{Env} (path s : string) (w : World) : World :=
  mkWorld _ (<[path := s]> (files w)) (rdeny w) (wdeny w) (stdout w) (repo w)
    (calls w).

(** [with path.open("w") as f: f.write(s)]: the file is created or
    truncated, then written. *)
Definition write_text `{Env} (path s : string) : M unit :=
  fun w =>
    match wdeny w !! path with
    | Some e => (Raise (exn_of_oserror e), w)
    | None => (Ret tt, after_write path s w)
    end.

(** [toml.load(path)]: the file is opened, read and parsed.  Where no
    regular file can be read, [open] raises: [IsADirectoryError] for a
    directory, [PermissionError] for a file that may not be read,
    [FileNotFoundError] when nothing is at the path. *)
Definition toml_load `{Env} (path : string) : M dict :=
  fun w =>
    match files w !! path with
    | Some content => (toml_loads content, w)
    | None =>
        match rdeny w !! path with
        | Some e => (Raise (exn_of_oserror e), w)
        | None => (Raise FileNotFoundError, w)
        end
    end.

(** [path.open("w")]: when the path can be opened, the file is there and
    empty from then on. *)
Definition open_w `{Env} (path : string) : M unit :=
  fun w =>
    match wdeny w !! path with
    | Some e => (Raise (exn_of_oserror e), w)
    | None => (Ret tt, after_write path "" w)
    end.

(** [f.write(s)] on the file opened at [path], and its closing. *)
Definition f_write `{Env} (path s : string) : M unit :=
  fun w => (Ret tt, after_write path s w).

(** [with path.open("w", encoding="utf8") as f: toml.dump(data, f)]: the
    file is opened first; [toml.dump] then makes the text of [data] and
    writes it.  When it raises instead, the file stays empty. *)
Definition toml_dump `{Env} (data : dict) (path : string) : M unit :=
  open_w path ;;
  text <- lift (toml_dumps data) ;;
  f_write path text.

(** The world after one child process that left the repository as [r]. *)
Definition after_call `{Env} (argv : list string) (r : Repo) (w : World)
  : World :=
  mkWorld _ (files w) (rdeny w) (wdeny w) (stdout w) r (calls w ++ [argv]).

(** [subprocess.check_output(argv)]: the output of the child, or
    [CalledProcessError] when its exit status is not zero.  The program
    is taken to be installed: the child always starts. *)
Definition check_output `{Env} (argv : list string) : M string :=
  fun w =>
    let '(status, out, r) := subprocess_run argv (repo w) in
    let w' := after_call argv r w in
    if (status =? 0)%Z then (Ret out, w') else (Raise CalledProcessError, w').

(** [subprocess.check_call(argv)] *)
Definition check_call `{Env} (argv : list string) : M unit :=
  fun w =>
    let '(status, out, r) := subprocess_run argv (repo w) in
    let w' := after_call argv r w in
    if (status =? 0)%Z then (Ret tt, w') else (Raise CalledProcessError, w').

(** ** The script *)

Definition VERSION_FILE_PATH : string := "rasa/version.py".

Definition PYPROJECT_FILE_PATH : string := "pyproject.toml".

(** The [argparse.Namespace] of the one flag, [--next_version]. *)
Record Namespace : Type := { ns_next_version : option string }.

(** [project_root()] *)
Definition project_root `{Env} : string := project_root_path.

(** The text [write_version_file] writes. *)
Definition version_file_text `{Env} (version : Version) : string :=
  "# this file will automatically be changed," ++ nl ++
  "# do not add anything but the version number here!" ++ nl ++
  "__version__ = " ++ dquote ++ Version_str version ++ dquote ++ nl.

Definition write_version_file `{Env} (path : string) (version : Version)
  : M unit :=
  let version_file := joinpath project_root path in
  print ("this is the version file path " ++ version_file) ;;
  write_text version_file (version_file_text version).

(** [data["tool"]["poetry"][key] = v].  The two inner dicts are objects
    held by [data], so the assignment shows in [data]. *)
Definition assign_tool_poetry (data : dict) (key : string) (v : value)
  : outcome dict :=
  let? tool := getitem (VDict data) "tool" in
  let? poetry := getitem tool "poetry" in
  let? poetry' := setitem poetry key v in
  let? tool' := setitem tool "poetry" poetry' in
  Ret (dict_set "tool" tool' data).

(** [[{"include" : "rasa"},]] *)
Definition nightly_packages : value :=
  VList [VDict [("include", VStr "rasa")]].

(** The three assignments of [write_version_to_pyproject]. *)
Definition update_pyproject `{Env} (data : dict) (version : Version)
  : outcome dict :=
  let? data := assign_tool_poetry data "name" (VStr "rasa-nightly") in
  let? data := assign_tool_poetry data "version" (VStr (Version_str version)) in
  assign_tool_poetry data "packages" nightly_packages.

Definition write_version_to_pyproject `{Env} (pyproject_file_path : string)
  (version : Version) : M unit :=
  let pyproject_file := joinpath project_root pyproject_file_path in
  try_except
    (data <- toml_load pyproject_file ;;
     data <- lift (update_pyproject data version) ;;
     toml_dump data pyproject_file)
    (fun e =>
       match e with
       | FileNotFoundError | TypeError =>
           Some (print ("Unable to update " ++ pyproject_file ++ ": file not found.") ;;
                 sys_exit 1)
       | TomlDecodeError =>
           Some (print ("Unable to parse " ++ pyproject_file ++ ": incorrect TOML file.") ;;
                 sys_exit 1)
       | _ => None
       end).

Definition parse_next_version `{Env} (version : option string) : M Version :=
  lift (Version_new version).

Definition next_version `{Env} (args : Namespace) : M Version :=
  parse_next_version (ns_next_version args).

Definition print_done_message `{Env} (version : Version) : M unit :=
  print "" ;;
  print (esc ++ "[94m All done - changes for rasa nightly version "
         ++ Version_str version ++ " are ready! " ++ esc ++ "[0m") ;;
  print "".

Definition symbolic_ref_argv : list string :=
  ["git"; "symbolic-ref"; "--short"; "HEAD"].

Definition git_current_branch `{Env} : M string :=
  try_except
    (output <- check_output symbolic_ref_argv ;;
     text <- lift (decode output) ;;
     ret (strip text))
    (fun e =>
       match e with
       | CalledProcessError => Some (ret "main")
       | _ => None
       end).

Definition git_current_branch_is_main `{Env} : M bool :=
  current_branch <- git_current_branch ;;
  ret (String.eqb current_branch "main" || String.eqb current_branch "ATO-114").

Definition tag_argv (tag : string) : list string :=
  ["git"; "tag"; tag; "-m"; "This is an internal development build"].

Definition tag_commit `{Env} (tag : string) : M unit :=
  print ("Applying tag '" ++ tag ++ "' to commit.") ;;
  check_call (tag_argv tag).

Definition push_argv (tag : string) : list string :=
  ["git"; "push"; "origin"; tag; "--tags"].

Definition push_tag `{Env} (tag : string) : M unit :=
  print ("Pushing tag '" ++ tag ++ "' to origin.") ;;
  check_call (push_argv tag).

Definition print_tag_release_done_message `{Env} (version : Version) : M unit :=
  print "" ;;
  print (esc ++ "[94m All done - tag for version " ++ Version_str version
         ++ " was added and pushed to the remote " ++ esc ++ "[0m").

Definition greeting : string :=
  "The release script will temporarily change the version number to a nightly version. Let's go!".

Definition not_on_main_warning : string :=
  nl ++ "    You are currently not on the main branch." ++
  nl ++ "    Nightly release should only happen from main branch." ++
  nl ++ "            ".

Definition main `{Env} (args : Namespace) : M unit :=
  print greeting ;;
  version <- next_version args ;;
  write_version_file VERSION_FILE_PATH version ;;
  write_version_to_pyproject PYPROJECT_FILE_PATH version ;;
  print_done_message version ;;
  branch <- git_current_branch ;;
  on_main <- git_current_branch_is_main ;;
  if negb on_main then
    print not_on_main_warning ;;
    sys_exit 1
  else
    let tag := Version_str version in
    tag_commit tag ;;
    push_tag tag ;;
    print_tag_release_done_message version.

(** The exit status of the interpreter: 0 when the script returns, the
    argument of [sys.exit], and 1 after a traceback for any other
    exception. *)
Definition exit_status {A} (o : outcome A) : Z :=
  match o with
  | Ret _ => 0
  | Raise (SystemExit code) => code
  | Raise _ => 1
  end.

(** [main(cmdline_args)] run as a process. *)
Definition run_script `{Env} (args : Namespace) (w : World) : Z * World :=
  let '(o, w') := main args w in (exit_status o, w').

(** ** Vocabulary of the statements

    Names for the paths, the messages, the worlds the script goes through
    and the conditions it runs under. *)

Section Vocabulary.
Context `{Env}.

Definition version_file : string :=
  joinpath project_root VERSION_FILE_PATH.

Definition pyproject_file : string :=
  joinpath project_root PYPROJECT_FILE_PATH.

Definition not_found_message : string :=
  "Unable to update " ++ pyproject_file ++ ": file not found.".

Definition parse_error_message : string :=
  "Unable to parse " ++ pyproject_file ++ ": incorrect TOML file.".

(** The [tool.poetry] table after the three assignments. *)
Definition nightly_poetry (poetry : dict) (v : Version) : dict :=
  dict_set "packages" nightly_packages
    (dict_set "version" (VStr (Version_str v))
       (dict_set "name" (VStr "rasa-nightly") poetry)).

(** The parsed manifest after the three assignments. *)
Definition nightly_data (data tool poetry : dict) (v : Version) : dict :=
  dict_set "tool"
    (VDict (dict_set "poetry" (VDict (nightly_poetry poetry v)) tool)) data.

(** The three fields the rewrite assigns, as paths from the top of the
    manifest. *)
Definition nightly_fields : list (list string) :=
  [ ["tool"; "poetry"; "name"];
    ["tool"; "poetry"; "version"];
    ["tool"; "poetry"; "packages"] ].

(** A path is apart from the three fields when it neither leads to one of
    them (the tables [tool] and [tool.poetry] hold the fields) nor goes
    through one. *)
Definition apart (path : list string) : Prop :=
  ∀ f, f ∈ nightly_fields → ¬ path `prefix_of` f ∧ ¬ f `prefix_of` path.

(** The working tree is on branch [b]: git prints the name and a line
    feed, and leaves the repository as it is.  The name is UTF-8 and has
    no white space at its ends, so that the name the script reads is the
    name of the branch. *)
Definition on_branch (w : World) (b : string) : Prop :=
  subprocess_run symbolic_ref_argv (repo w) = (0, b ++ nl, repo w)
  ∧ decode (b ++ nl) = Ret (b ++ nl)
  ∧ strip (b ++ nl) = b.

(** The text [toml.dump] makes of the parsed manifest after the three
    assignments. *)
Definition dumped (data : dict) (v : Version) : outcome string :=
  let? data' := update_pyproject data v in toml_dumps data'.

(** The manifest is there, parses to [data] and has the two tables. *)
Definition clean_manifest (w : World) (data tool poetry : dict) : Prop :=
  ∃ content,
    files w !! pyproject_file = Some content
    ∧ toml_loads content = Ret data
    ∧ dict_get "tool" data = Some (VDict tool)
    ∧ dict_get "poetry" tool = Some (VDict poetry).

(** Both files can be opened for writing. *)
Definition writable (w : World) : Prop :=
  wdeny w !! version_file = None ∧ wdeny w !! pyproject_file = None.

(** What [main] does after the two files are written. *)
Definition main_tail (version : Version) : M unit :=
  print_done_message version ;;
  branch <- git_current_branch ;;
  on_main <- git_current_branch_is_main ;;
  if negb on_main then
    print not_on_main_warning ;;
    sys_exit 1
  else
    let tag := Version_str version in
    tag_commit tag ;;
    push_tag tag ;;
    print_tag_release_done_message version.

(** The world once the greeting is printed and the version file written. *)
Definition versioned (v : Version) (w : World) : World :=
  after_write version_file (version_file_text v)
    (after_print ("this is the version file path " ++ version_file)
       (after_print greeting w)).

(** The world once the first closing message is printed. *)
Definition done_printed (v : Version) (w : World) : World :=
  after_print ""
    (after_print (esc ++ "[94m All done - changes for rasa nightly version "
                  ++ Version_str v ++ " are ready! " ++ esc ++ "[0m")
       (after_print "" w)).

(** The world after the tag was made and pushed. *)
Definition released (v : Version) (r1 r2 : Repo) (w : World) : World :=
  after_print (esc ++ "[94m All done - tag for version " ++ Version_str v
               ++ " was added and pushed to the remote " ++ esc ++ "[0m")
    (after_print ""
       (after_call (push_argv (Version_str v)) r2
          (after_print ("Pushing tag '" ++ Version_str v ++ "' to origin.")
             (after_call (tag_argv (Version_str v)) r1
                (after_print ("Applying tag '" ++ Version_str v
                              ++ "' to commit.")
                   (after_call symbolic_ref_argv (repo w)
                      (after_call symbolic_ref_argv (repo w)
                         (done_printed v w)))))))).

End Vocabulary.

(** ** A concrete environment

    One behaviour of the imported packages and of git, on a fragment of
    their inputs, to run the script on concrete worlds: versions of the
    form [N(.N)*] with an optional last component [devN], TOML made of
    comment lines, table headers and [key = "string"] lines, and a
    repository that is a branch, the local tags and the tags of the
    remote. *)

Definition is_digit (c : ascii) : bool := in_range 48 57 (N_of_ascii c).

Fixpoint all_digits (s : string) : bool :=
  match s with
  | EmptyString => true
  | String c s' => is_digit c && all_digits s'
  end.

(** A decimal number without a superfluous leading zero. *)
Definition is_number (s : string) : bool :=
  match s with
  | EmptyString => false
  | String "0" EmptyString => true
  | String "0" _ => false
  | _ => all_digits s
  end.

Definition is_dev (s : string) : bool :=
  match s with
  | String "d" (String "e" (String "v" n)) => is_number n
  | _ => false
  end.

Definition ex_version_ok (s : string) : bool :=
  match rev (split_on "." s) with
  | [] => false
  | last :: before =>
      forallb is_number before
      && (is_number last || (is_dev last && negb (Nat.eqb (length before) 0)))
  end.

Definition ex_Version_new (arg : option string) : outcome string :=
  match arg with
  | None => Raise TypeError
  | Some s => if ex_version_ok s then Ret s else Raise InvalidVersion
  end.

(** *** TOML, read *)

Definition is_bare_char (c : ascii) : bool :=
  let n := N_of_ascii c in
  in_range 48 57 n || in_range 65 90 n || in_range 97 122 n
  || (n =? 45)%N || (n =? 95)%N.

Fixpoint all_bare (s : string) : bool :=
  match s with
  | EmptyString => true
  | String c s' => is_bare_char c && all_bare s'
  end.

Definition is_bare_key (s : string) : bool :=
  negb (String.eqb s "") && all_bare s.

(** No quote and no backslash: the string is its own TOML basic string. *)
Fixpoint plain_text (s : string) : bool :=
  match s with
  | EmptyString => true
  | String c s' =>
      negb (Ascii.eqb c "034"%char) && negb (Ascii.eqb c "\"%char)
      && negb (N_of_ascii c <? 32)%N && plain_text s'
  end.

(** The table at [path] exists afterwards, created empty where it was
    missing; [None] when a step of [path] is not a table. *)
Fixpoint ensure_table (path : list string) (d : dict) : option dict :=
  match path with
  | [] => Some d
  | p :: path' =>
      match dict_get p d with
      | Some (VDict sub) =>
          match ensure_table path' sub with
          | Some sub' => Some (dict_set p (VDict sub') d)
          | None => None
          end
      | Some _ => None
      | None =>
          match ensure_table path' [] with
          | Some sub' => Some ((d ++ [(p, VDict sub')])%list)
          | None => None
          end
      end
  end.

(** A new key of the table at [path]; [None] when the key is there. *)
Fixpoint insert_at (path : list string) (k : string) (v : value) (d : dict)
  : option dict :=
  match path with
  | [] =>
      match dict_get k d with
      | Some _ => None
      | None => Some ((d ++ [(k, v)])%list)
      end
  | p :: path' =>
      match dict_get p d with
      | Some (VDict sub) =>
          match insert_at path' k v sub with
          | Some sub' => Some (dict_set p (VDict sub') d)
          | None => None
          end
      | _ => None
      end
  end.

Definition first_char (s : string) : option ascii :=
  match s with
  | EmptyString => None
  | String c _ => Some c
  end.

Fixpoint last_char (s : string) : option ascii :=
  match s with
  | EmptyString => None
  | String c EmptyString => Some c
  | String _ s' => last_char s'
  end.

(** [s] without its first and its last character. *)
Definition inner (s : string) : string :=
  String.substring 1 (String.length s - 2) s.

(** The part before the first [c], and the part after it. *)
Fixpoint cut_at (c : ascii) (s : string) : option (string * string) :=
  match s with
  | EmptyString => None
  | String c' s' =>
      if Ascii.eqb c c' then Some (EmptyString, s')
      else match cut_at c s' with
           | Some (a, b) => Some (String c' a, b)
           | None => None
           end
  end.

Definition is_char (c : ascii) (o : option ascii) : bool :=
  match o with
  | Some c' => Ascii.eqb c c'
  | None => false
  end.

(** One line, read in the table at [cur]: the table to read the next line
    in, and the data. *)
Definition ex_load_line (line : string) (st : list string * dict)
  : option (list string * dict) :=
  let '(cur, data) := st in
  let l := strip line in
  if String.eqb l "" || is_char "#" (first_char l) then Some st
  else if is_char "[" (first_char l) && is_char "]" (last_char l)
          && (2 <=? String.length l)%nat then
    let path := split_on "." (inner l) in
    if forallb is_bare_key path then
      match ensure_table path data with
      | Some data' => Some (path, data')
      | None => None
      end
    else None
  else
    match cut_at "=" l with
    | Some (k, v) =>
        let k := strip k in
        let v := strip v in
        if is_bare_key k && is_char "034" (first_char v)
           && is_char "034" (last_char v) && (2 <=? String.length v)%nat
           && plain_text (inner v)
        then
          match insert_at cur k (VStr (inner v)) data with
          | Some data' => Some (cur, data')
          | None => None
          end
        else None
    | None => None
    end.

Fixpoint ex_load_lines (lines : list string) (st : list string * dict)
  : outcome dict :=
  match lines with
  | [] => Ret (snd st)
  | line :: lines' =>
      match ex_load_line line st with
      | Some st' => ex_load_lines lines' st'
      | None => Raise TomlDecodeError
      end
  end.

Definition ex_toml_loads (content : string) : outcome dict :=
  match decode content with
  | Raise e => Raise e
  | Ret text => ex_load_lines (split_on "010" text) ([], [])
  end.

(** *** TOML, written

    The layout of [toml.dumps]: the plain keys of a table, then its arrays
    of tables, then the tables below it, level by level.

    [toml] 0.10.2 writes a string through [repr] and then mends the [\x]
    escapes [repr] made.  Among the characters a parsed string can have,
    [repr] writes U+007F to U+00A0 and U+00AD so.  For a string that begins
    with one of them and has no other, the mending indexes past the end of
    a list: [toml.dumps] raises [IndexError]. *)

Definition repr_hex (b0 : N) (rest : list N) : bool :=
  (b0 =? 127)%N
  || match rest with
     | b1 :: _ => (b0 =? 194)%N && (in_range 128 160 b1 || (b1 =? 173)%N)
     | [] => false
     end.

Fixpoint count_repr_hex (l : list N) : nat :=
  match l with
  | [] => O
  | b0 :: rest =>
      ((if repr_hex b0 rest then 1 else 0) + count_repr_hex rest)%nat
  end.

Definition dump_str_fails (s : string) : bool :=
  match codes s with
  | [] => false
  | b0 :: rest => repr_hex b0 rest && Nat.eqb (count_repr_hex rest) 0
  end.

Fixpoint dump_raises (v : value) : bool :=
  match v with
  | VStr s => dump_str_fails s
  | VList l => existsb dump_raises l
  | VDict d => existsb (fun kv => dump_raises (snd kv)) d
  | _ => false
  end.

Definition is_dict (v : value) : bool :=
  match v with
  | VDict _ => true
  | _ => false
  end.

Definition is_table_array (v : value) : bool :=
  match v with
  | VList l => existsb is_dict l
  | _ => false
  end.

Fixpoint dump_value (v : value) : string :=
  match v with
  | VStr s => dquote ++ s ++ dquote
  | VInt z => pretty z
  | VBool b => if b then "true" else "false"
  | VOther repr => repr
  | VList l => "[" ++ fold_right (fun x acc => " " ++ dump_value x ++ "," ++ acc) "]" l
  | VDict _ => ""
  end.

Fixpoint plain_lines (d : dict) : string :=
  match d with
  | [] => ""
  | (k, v) :: d' =>
      if is_dict v || is_table_array v then plain_lines d'
      else k ++ " = " ++ dump_value v ++ nl ++ plain_lines d'
  end.

Definition array_item (name : string) (a : value) : string :=
  match a with
  | VDict fields => "[[" ++ name ++ "]]" ++ nl ++ plain_lines fields ++ nl
  | _ => ""
  end.

Fixpoint array_lines (sup : string) (d : dict) : string :=
  match d with
  | [] => ""
  | (k, VList l) :: d' =>
      (if existsb is_dict l
       then fold_right (fun a acc => array_item (sup ++ k) a ++ acc) "" l
       else "")
      ++ array_lines sup d'
  | _ :: d' => array_lines sup d'
  end.

Fixpoint sub_tables (sup : string) (d : dict) : list (string * dict) :=
  match d with
  | [] => []
  | (k, VDict sub) :: d' => (sup ++ k, sub) :: sub_tables sup d'
  | _ :: d' => sub_tables sup d'
  end.

Definition dotted (sup : string) : string :=
  if String.eqb sup "" then "" else sup ++ ".".

Definition section_text (name : string) (d : dict) : string :=
  plain_lines d ++ array_lines (dotted name) d.

Fixpoint ends_blank (s : string) : bool :=
  match s with
  | String "010" (String "010" EmptyString) => true
  | String _ s' => ends_blank s'
  | EmptyString => false
  end.

Definition dump_section (acc : string * list (string * dict))
  (sec : string * dict) : string * list (string * dict) :=
  let '(retval, next) := acc in
  let '(name, d) := sec in
  let text := section_text name d in
  let subs := sub_tables (dotted name) d in
  let retval' :=
    if negb (String.eqb text "") || (Nat.eqb (length subs) 0) then
      (if negb (String.eqb retval "") && negb (ends_blank retval)
       then retval ++ nl else retval)
      ++ "[" ++ name ++ "]" ++ nl ++ text
    else retval in
  (retval', (next ++ subs)%list).

Fixpoint dump_levels (fuel : nat) (sections : list (string * dict))
  (retval : string) : string :=
  match fuel, sections with
  | O, _ => retval
  | _, [] => retval
  | S fuel', _ =>
      let '(retval', next) := fold_left dump_section sections (retval, []) in
      dump_levels fuel' next retval'
  end.

Fixpoint depth (v : value) : nat :=
  match v with
  | VDict d => S (fold_right (fun kv acc => Nat.max (depth (snd kv)) acc) O d)
  | _ => O
  end.

Definition dump_text (data : dict) : string :=
  dump_levels (depth (VDict data)) (sub_tables "" data) (section_text "" data).

Definition ex_toml_dumps (data : dict) : outcome string :=
  if dump_raises (VDict data) then Raise IndexError else Ret (dump_text data).

(** *** git *)

Record ex_repo : Type := {
  head : option string;      (* the branch, [None] when HEAD is detached *)
  tags : list string;
  origin_tags : list string
}.

Definition ex_subprocess_run (argv : list string) (r : ex_repo)
  : Z * string * ex_repo :=
  match argv with
  | ["git"; "symbolic-ref"; "--short"; "HEAD"] =>
      match head r with
      | Some b => (0, b ++ nl, r)
      | None => (128, "", r)
      end
  | ["git"; "tag"; tag; "-m"; _] =>
      if existsb (String.eqb tag) (tags r) then (128, "", r)
      else (0, "", {| head := head r; tags := tag :: tags r;
                      origin_tags := origin_tags r |})
  | ["git"; "push"; "origin"; tag; "--tags"] =>
      (0, "", {| head := head r; tags := tags r;
                 origin_tags := (tags r ++ origin_tags r)%list |})
  | _ => (1, "", r)
  end.

#[local] Instance ex_env : Env := {|
  Version := string;
  Version_new := ex_Version_new;
  Version_str := fun v => v;
  toml_loads := ex_toml_loads;
  toml_dumps := ex_toml_dumps;
  Repo := ex_repo;
  subprocess_run := ex_subprocess_run;
  project_root_path := "/repo"
|}.

Definition ex_manifest : string :=
  "# the nightly build rewrites this file" ++ nl ++
  "[build-system]" ++ nl ++
  "build-backend = " ++ dquote ++ "poetry.masonry.api" ++ dquote ++ nl ++
  nl ++
  "[tool.poetry]" ++ nl ++
  "name = " ++ dquote ++ "rasa" ++ dquote ++ nl ++
  "version = " ++ dquote ++ "2.4.0" ++ dquote ++ nl ++
  "license = " ++ dquote ++ "Apache-2.0" ++ dquote ++ nl.

Definition ex_world (branch : option string) (fs : gmap string string)
  : World :=
  mkWorld ex_env fs ∅ ∅ []
    {| head := branch; tags := []; origin_tags := [] |} [].

(** What the manifest above parses to. *)
Definition ex_poetry : dict :=
  [("name", VStr "rasa"); ("version", VStr "2.4.0");
   ("license", VStr "Apache-2.0")].

Definition ex_tool : dict := [("poetry", VDict ex_poetry)].

Definition ex_data : dict :=
  [("build-system", VDict [("build-backend", VStr "poetry.masonry.api")]);
   ("tool", VDict ex_tool)].

(** The same manifest after the rewrite for version 2.4.1.dev3. *)
Definition ex_manifest_nightly : string :=
  "[build-system]" ++ nl ++
  "build-backend = " ++ dquote ++ "poetry.masonry.api" ++ dquote ++ nl ++
  nl ++
  "[tool.poetry]" ++ nl ++
  "name = " ++ dquote ++ "rasa-nightly" ++ dquote ++ nl ++
  "version = " ++ dquote ++ "2.4.1.dev3" ++ dquote ++ nl ++
  "license = " ++ dquote ++ "Apache-2.0" ++ dquote ++ nl ++
  "[[tool.poetry.packages]]" ++ nl ++
  "include = " ++ dquote ++ "rasa" ++ dquote ++ nl ++
  nl.

(** A manifest of another tool, without the table [tool]. *)
Definition ex_manifest_no_tool : string :=
  "[build-system]" ++ nl ++
  "build-backend = " ++ dquote ++ "setuptools.build_meta" ++ dquote ++ nl.

(** Not TOML. *)
Definition ex_manifest_broken : string :=
  "[tool.poetry" ++ nl ++ "name = rasa" ++ nl.

Definition ex_files (manifest : string) : gmap string string :=
  {[ "/repo/pyproject.toml" := manifest ]}.

Definition ex_args : Namespace := {| ns_next_version := Some "2.4.1.dev3" |}.

(** ** The script past the claims: more vocabulary *)

Section Paths.
Context `{Env}.

(** The part of [main] behind the branch guard. *)
Definition release_part (version : Version) : M unit :=
  let tag := Version_str version in
  tag_commit tag ;;
  push_tag tag ;;
  print_tag_release_done_message version.

(** The part of [main] that refuses the branch. *)
Definition refuse_part : M unit :=
  print not_on_main_warning ;;
  sys_exit 1.

(** The world in which [main] reaches the guard: the two files written,
    the first closing message printed, the branch read twice. *)
Definition at_guard (v : Version) (text : string) (w : World) : World :=
  after_call symbolic_ref_argv (repo w)
    (after_call symbolic_ref_argv (repo w)
       (done_printed v (after_write pyproject_file text (versioned v w)))).

(** HEAD is detached: reading the symbolic ref fails, and leaves the
    repository as it is. *)
Definition detached (w : World) : Prop :=
  ∃ status out,
    subprocess_run symbolic_ref_argv (repo w) = (status, out, repo w)
    ∧ status ≠ 0.

(** What the script prints up to the guard. *)
Definition transcript_to_guard (v : Version) : list string :=
  [ greeting;
    "this is the version file path " ++ version_file;
    "";
    esc ++ "[94m All done - changes for rasa nightly version "
      ++ Version_str v ++ " are ready! " ++ esc ++ "[0m";
    "" ].

End Paths.

(** A repository that has the tag already. *)
Definition ex_world_tagged (branch : option string) (fs : gmap string string)
  : World :=
  mkWorld ex_env fs ∅ ∅ []
    {| head := branch; tags := ["2.4.1.dev3"]; origin_tags := [] |} [].

(** The same git with a remote that cannot be reached: [git push] fails. *)
Definition ex_subprocess_offline (argv : list string) (r : ex_repo)
  : Z * string * ex_repo :=
  match argv with
  | ["git"; "push"; _; _; _] => (128, "", r)
  | _ => ex_subprocess_run argv r
  end.

Definition ex_env_offline : Env := {|
  Version := string;
  Version_new := ex_Version_new;
  Version_str := fun v => v;
  toml_loads := ex_toml_loads;
  toml_dumps := ex_toml_dumps;
  Repo := ex_repo;
  subprocess_run := ex_subprocess_offline;
  project_root_path := "/repo"
|}.

Definition ex_world_offline (branch : option string)
  (fs : gmap string string) : @World ex_env_offline :=
  mkWorld ex_env_offline fs ∅ ∅ []
    {| head := branch; tags := []; origin_tags := [] |} [].

(** The key [k] when [d] lacks it: what [d[k] = v] appends. *)
Definition appended (k : string) (d : dict) : list string :=
  match dict_get k d with
  | Some _ => []
  | None => [k]
  end.

Section Always.
Context `{Env}.

(** [m] relates by [R] the world it is run in to the world it leaves,
    whatever its outcome is. *)
Definition keeps {A} (R : World → World → Prop) (m : M A) : Prop :=
  ∀ w, R w (snd (m w)).

(** No file but the one at [q] has changed, no file is gone, and no child
    process was run. *)
Definition touches_only (q : string) (w w' : World) : Prop :=
  (∀ p, p ≠ q → files w' !! p = files w !! p)
  ∧ (∀ p, is_Some (files w !! p) → is_Some (files w' !! p))
  ∧ calls w' = calls w
  ∧ repo w' = repo w.

(** No child process was run. *)
Definition no_call (w w' : World) : Prop :=
  calls w' = calls w ∧ repo w' = repo w.

(** No file was written. *)
Definition no_write (w w' : World) : Prop :=
  files w' = files w ∧ wdeny w' = wdeny w.

(** [main] up to the first closing message. *)
Definition main_head (args : Namespace) : M Version :=
  print greeting ;;
  version <- next_version args ;;
  write_version_file VERSION_FILE_PATH version ;;
  write_version_to_pyproject PYPROJECT_FILE_PATH version ;;
  ret version.

(** The child processes of a release, in their order. *)
Definition release_calls (v : Version) : list (list string) :=
  [ symbolic_ref_argv; symbolic_ref_argv;
    tag_argv (Version_str v); push_argv (Version_str v) ].

End Always.

(** More worlds: a version file in a directory that is not there, a
    manifest that is read-only, a directory where the manifest should be,
    a manifest in which [tool] is a string, a manifest that is not UTF-8,
    a manifest with a description that begins with a no-break space, a
    branch whose name is Latin-1, and a branch whose name is a no-break
    space and [main]. *)
Definition ex_world_no_package_dir : World :=
  mkWorld ex_env (ex_files ex_manifest) ∅
    {[ "/repo/rasa/version.py" := ENOENT ]} []
    {| head := Some "main"; tags := []; origin_tags := [] |} [].

Definition ex_world_read_only : World :=
  mkWorld ex_env (ex_files ex_manifest) ∅
    {[ "/repo/pyproject.toml" := EACCES ]} []
    {| head := Some "main"; tags := []; origin_tags := [] |} [].

Definition ex_world_manifest_dir : World :=
  mkWorld ex_env ∅ {[ "/repo/pyproject.toml" := EISDIR ]}
    {[ "/repo/pyproject.toml" := EISDIR ]} []
    {| head := Some "main"; tags := []; origin_tags := [] |} [].

Definition ex_manifest_tool_string : string :=
  "tool = " ++ dquote ++ "poetry" ++ dquote ++ nl.

Definition ex_manifest_not_utf8 : string :=
  "name = " ++ dquote ++ String "233"%char "" ++ dquote ++ nl.

Definition ex_branch_latin1 : string :=
  "d" ++ String "233"%char "" ++ "v".

Definition nbsp : string := String "194"%char (String "160"%char "").

Definition ex_manifest_nbsp : string :=
  "[tool.poetry]" ++ nl ++
  "name = " ++ dquote ++ "rasa" ++ dquote ++ nl ++
  "description = " ++ dquote ++ nbsp ++ "nightly builds" ++ dquote ++ nl.

Definition ex_data_nbsp : dict :=
  [("tool",
    VDict [("poetry",
            VDict [("name", VStr "rasa");
                   ("description", VStr (nbsp ++ "nightly builds"))])])].

Definition ex_branch_nbsp_main : string := nbsp ++ "main".



(** * Properties *)

(** ** The built-ins on small inputs *)

Example strip_branch_line : strip ("  feature/x" ++ nl) = "feature/x".
Proof. reflexivity. Qed.

Example strip_keeps_inner_space : strip (" a b " ++ nl) = "a b".
Proof. reflexivity. Qed.

(** U+00A0 before and U+2028 after are white space for [str.strip]. *)
Example strip_unicode_space :
  strip (of_codes [194; 160; 109; 97; 105; 110; 226; 128; 168]%N) = "main".
Proof. reflexivity. Qed.

(** The letter e with an acute accent ends in the byte 0xA9 and is kept. *)
Example strip_keeps_letters :
  strip (of_codes [32; 195; 169; 32]%N) = of_codes [195; 169]%N.
Proof. reflexivity. Qed.

Example decode_ascii : decode ("main" ++ nl) = Ret ("main" ++ nl).
Proof. reflexivity. Qed.

Example decode_lone_continuation :
  decode (of_codes [109; 128]%N) = Raise UnicodeDecodeError.
Proof. reflexivity. Qed.

Example decode_overlong :
  decode (of_codes [192; 175]%N) = Raise UnicodeDecodeError.
Proof. reflexivity. Qed.

Example joinpath_directory :
  joinpath "/home/ci/rasa" "pyproject.toml" = "/home/ci/rasa/pyproject.toml".
Proof. reflexivity. Qed.

Example joinpath_dot : joinpath "." "rasa/version.py" = "rasa/version.py".
Proof. reflexivity. Qed.

Example joinpath_root : joinpath "/" "pyproject.toml" = "/pyproject.toml".
Proof. reflexivity. Qed.

Example joinpath_absolute : joinpath "/repo" "/etc/motd" = "/etc/motd".
Proof. reflexivity. Qed.

Example joinpath_normalises : joinpath "/repo/" "./a//b/." = "/repo/a/b".
Proof. reflexivity. Qed.

Example joinpath_keeps_dotdot : joinpath "a" "../b" = "a/../b".
Proof. reflexivity. Qed.

Example joinpath_two_slashes : joinpath "//net" "x" = "//net/x".
Proof. reflexivity. Qed.

Example joinpath_three_slashes : joinpath "///a" "b" = "/a/b".
Proof. reflexivity. Qed.

Example joinpath_nothing : joinpath "" "" = ".".
Proof. reflexivity. Qed.

(** [toml.dumps] on strings with a no-break space: at the head of the
    string it fails, elsewhere it does not. *)
Example dump_str_fails_at_head : dump_str_fails (nbsp ++ "main") = true.
Proof. reflexivity. Qed.

Example dump_str_fails_ascii : dump_str_fails "rasa-nightly" = false.
Proof. reflexivity. Qed.

(** The branch of that name is read as [main]. *)
Example strip_nbsp_main : strip (ex_branch_nbsp_main ++ nl) = "main".
Proof. reflexivity. Qed.

Example dict_set_in_place :
  dict_set "b" (VInt 9) [("a", VInt 1); ("b", VInt 2); ("c", VInt 3)]
  = [("a", VInt 1); ("b", VInt 9); ("c", VInt 3)].
Proof. reflexivity. Qed.

Example dict_set_new_key :
  dict_set "d" (VInt 9) [("a", VInt 1); ("b", VInt 2)]
  = [("a", VInt 1); ("b", VInt 2); ("d", VInt 9)].
Proof. reflexivity. Qed.

Example getitem_of_string : getitem (VStr "x") "poetry" = Raise TypeError.
Proof. reflexivity. Qed.

Example getitem_missing : getitem (VDict []) "tool" = Raise (KeyError "tool").
Proof. reflexivity. Qed.

Example assign_in_nested_tables :
  assign_tool_poetry
    [("tool", VDict [("poetry", VDict [("name", VStr "rasa")]);
                     ("black", VDict [])])]
    "name" (VStr "rasa-nightly")
  = Ret [("tool", VDict [("poetry", VDict [("name", VStr "rasa-nightly")]);
                         ("black", VDict [])])].
Proof. reflexivity. Qed.

(** ** Association lists *)

Lemma dict_get_set_eq (k : string) (v : value) (d : dict) :
  dict_get k (dict_set k v d) = Some v.
Proof.
  induction d as [|[k' v'] d IH]; simpl.
  - by rewrite String.eqb_refl.
  - destruct (String.eqb k k') eqn:E; simpl; rewrite E; [done | exact IH].
Qed.

Lemma dict_get_set_ne (k k' : string) (v : value) (d : dict) :
  k ≠ k' → dict_get k' (dict_set k v d) = dict_get k' d.
Proof.
  intros Hne. induction d as [|[k0 v0] d IH]; simpl.
  - destruct (String.eqb k' k) eqn:E; [|done].
    apply String.eqb_eq in E. congruence.
  - destruct (String.eqb k k0) eqn:E; simpl.
    + apply String.eqb_eq in E. subst k0.
      destruct (String.eqb k' k) eqn:E'; [|done].
      apply String.eqb_eq in E'. congruence.
    + by rewrite IH.
Qed.

Lemma dict_set_set (k : string) (v v' : value) (d : dict) :
  dict_set k v (dict_set k v' d) = dict_set k v d.
Proof.
  induction d as [|[k0 v0] d IH]; simpl.
  - by rewrite String.eqb_refl.
  - destruct (String.eqb k k0) eqn:E; simpl; rewrite E; [done | by rewrite IH].
Qed.

Lemma dict_set_keys (k : string) (v v0 : value) (d : dict) :
  dict_get k d = Some v0 → map fst (dict_set k v d) = map fst d.
Proof.
  induction d as [|[k' v'] d IH]; simpl; [done|].
  destruct (String.eqb k k') eqn:E; simpl; [done|].
  intros Hd. by rewrite IH.
Qed.

(** ** The monad *)

Section Run.
Context `{Env}.

Lemma bind_ret {A B} (m : M A) (k : A → M B) (w w' : World) (a : A) :
  m w = (Ret a, w') → bind m k w = k a w'.
Proof. intros Hm. unfold bind. by rewrite Hm. Qed.

Lemma bind_raise {A B} (m : M A) (k : A → M B) (w w' : World) (e : exn) :
  m w = (Raise e, w') → bind m k w = (Raise e, w').
Proof. intros Hm. unfold bind. by rewrite Hm. Qed.

Lemma try_ret {A} (m : M A) (h : exn → option (M A)) (w w' : World) (a : A) :
  m w = (Ret a, w') → try_except m h w = (Ret a, w').
Proof. intros Hm. unfold try_except. by rewrite Hm. Qed.

Lemma try_caught {A} (m : M A) (h : exn → option (M A)) (w w' : World)
  (e : exn) (c : M A) :
  m w = (Raise e, w') → h e = Some c → try_except m h w = c w'.
Proof. intros Hm Hh. unfold try_except. by rewrite Hm, Hh. Qed.

Lemma try_uncaught {A} (m : M A) (h : exn → option (M A)) (w w' : World)
  (e : exn) :
  m w = (Raise e, w') → h e = None → try_except m h w = (Raise e, w').
Proof. intros Hm Hh. unfold try_except. by rewrite Hm, Hh. Qed.

(** ** The branch guard *)

Lemma git_current_branch_failed (w : World) (status : Z) (out : string)
  (r : Repo) :
  subprocess_run symbolic_ref_argv (repo w) = (status, out, r) →
  status ≠ 0 →
  git_current_branch w = (Ret "main", after_call symbolic_ref_argv r w).
Proof.
  intros Hrun Hst. unfold git_current_branch.
  apply try_caught with (e := CalledProcessError); [|done].
  apply bind_raise. unfold check_output. rewrite Hrun.
  by apply Z.eqb_neq in Hst as ->.
Qed.

Lemma git_current_branch_read (w : World) (out text : string) (r : Repo) :
  subprocess_run symbolic_ref_argv (repo w) = (0, out, r) →
  decode out = Ret text →
  git_current_branch w = (Ret (strip text), after_call symbolic_ref_argv r w).
Proof.
  intros Hrun Hdec. unfold git_current_branch. apply try_ret.
  erewrite bind_ret; [|unfold check_output; by rewrite Hrun].
  erewrite bind_ret; [|unfold lift; by rewrite Hdec]. done.
Qed.

Lemma is_main_of_branch (w w1 : World) (b : string) :
  git_current_branch w = (Ret b, w1) →
  git_current_branch_is_main w
  = (Ret (String.eqb b "main" || String.eqb b "ATO-114"), w1).
Proof.
  intros Hb. unfold git_current_branch_is_main. by erewrite bind_ret.
Qed.

Lemma on_branch_reads (w w0 : World) (b : string) :
  on_branch w b → repo w0 = repo w →
  git_current_branch w0 = (Ret b, after_call symbolic_ref_argv (repo w) w0).
Proof.
  intros (Hrun & Hdec & Hstrip) Hrepo. rewrite <- Hstrip at 1.
  apply git_current_branch_read with (out := b ++ nl);
    [by rewrite Hrepo|done].
Qed.


(** C6. When the child process that reads the symbolic ref of HEAD ends
    with a status other than zero, [git_current_branch] returns ["main"]
    and raises nothing, and the guard run in that state returns true. *)
Theorem git_current_branch_fallback (w : World) (status : Z) (out : string)
  (r : Repo) :
  subprocess_run symbolic_ref_argv (repo w) = (status, out, r) →
  status ≠ 0 →
  git_current_branch w = (Ret "main", after_call symbolic_ref_argv r w)
  ∧ git_current_branch_is_main w
    = (Ret true, after_call symbolic_ref_argv r w).
Proof.
  intros Hrun Hst.
  pose proof (git_current_branch_failed w status out r Hrun Hst) as Hb.
  split; [exact Hb|]. by rewrite (is_main_of_branch _ _ _ Hb).
Qed.

(** ** The version file *)

Lemma write_version_file_run (path : string) (v : Version) (w : World) :
  wdeny w !! joinpath project_root path = None →
  write_version_file path v w
  = (Ret tt,
     after_write (joinpath project_root path) (version_file_text v)
       (after_print ("this is the version file path "
                     ++ joinpath project_root path) w)).
Proof.
  intros Hw. unfold write_version_file.
  erewrite bind_ret; [|reflexivity].
  unfold write_text. simpl. by rewrite Hw.
Qed.

(** C7. For every version [v], when the version file can be opened for
    writing, [write_version_file] returns and leaves at that path a file
    that is exactly the two comment lines of the header followed by the
    line [__version__ = "<v>"], whatever the file held before; no other
    file changes. *)
Theorem write_version_file_content (path : string) (v : Version) (w : World) :
  wdeny w !! joinpath project_root path = None →
  ∃ w' : World,
    write_version_file path v w = (Ret tt, w')
    ∧ files w' !! joinpath project_root path
      = Some ("# this file will automatically be changed," ++ nl ++
              "# do not add anything but the version number here!" ++ nl ++
              "__version__ = " ++ dquote ++ Version_str v ++ dquote ++ nl)
    ∧ ∀ other : string,
        other ≠ joinpath project_root path →
        files w' !! other = files w !! other.
Proof.
  intros Hw. eexists. split; [by apply write_version_file_run|]. split.
  - simpl. by rewrite lookup_insert_eq.
  - intros other Hne. simpl. by rewrite lookup_insert_ne.
Qed.

(** ** Version resolution *)

Lemma next_version_run (args : Namespace) (w : World) :
  next_version args w = (Version_new (ns_next_version args), w).
Proof. reflexivity. Qed.

(** C5. When the string given for [--next_version] is one the [Version]
    constructor rejects with [InvalidVersion], version resolution raises
    that exception, and [main] ends with it having written no file: the
    files of the world are those it started with (nor was any child process
    run; only the greeting was printed). *)
Theorem invalid_version_writes_nothing (s : string) (w : World) :
  Version_new (Some s) = Raise InvalidVersion →
  next_version {| ns_next_version := Some s |} w = (Raise InvalidVersion, w)
  ∧ ∃ w' : World,
      main {| ns_next_version := Some s |} w = (Raise InvalidVersion, w')
      ∧ files w' = files w
      ∧ stdout w' = (stdout w ++ [greeting])%list
      ∧ repo w' = repo w
      ∧ calls w' = calls w.
Proof.
  intros Hbad. split.
  - by rewrite next_version_run; simpl; rewrite Hbad.
  - eexists. split.
    + unfold main. erewrite bind_ret; [|reflexivity].
      apply bind_raise. by rewrite next_version_run; simpl; rewrite Hbad.
    + done.
Qed.

(** ** The manifest *)

Lemma assign_tool_poetry_ok (data tool poetry : dict) (key : string)
  (x : value) :
  dict_get "tool" data = Some (VDict tool) →
  dict_get "poetry" tool = Some (VDict poetry) →
  assign_tool_poetry data key x
  = Ret (dict_set "tool"
           (VDict (dict_set "poetry" (VDict (dict_set key x poetry)) tool))
           data).
Proof.
  intros Ht Hp. unfold assign_tool_poetry. simpl. rewrite Ht. simpl.
  rewrite Hp. reflexivity.
Qed.

Lemma update_pyproject_ok (data tool poetry : dict) (v : Version) :
  dict_get "tool" data = Some (VDict tool) →
  dict_get "poetry" tool = Some (VDict poetry) →
  update_pyproject data v = Ret (nightly_data data tool poetry v).
Proof.
  intros Ht Hp. unfold update_pyproject.
  rewrite (assign_tool_poetry_ok _ _ _ _ _ Ht Hp). cbn [obind].
  erewrite assign_tool_poetry_ok;
    [|apply dict_get_set_eq|apply dict_get_set_eq]. cbn [obind].
  erewrite assign_tool_poetry_ok;
    [|apply dict_get_set_eq|apply dict_get_set_eq].
  unfold nightly_data, nightly_poetry. by rewrite !dict_set_set.
Qed.

Lemma update_pyproject_no_tool (data : dict) (v : Version) :
  dict_get "tool" data = None →
  update_pyproject data v = Raise (KeyError "tool").
Proof.
  intros Ht. unfold update_pyproject, assign_tool_poetry. simpl.
  by rewrite Ht.
Qed.

Lemma update_pyproject_no_poetry (data tool : dict) (v : Version) :
  dict_get "tool" data = Some (VDict tool) →
  dict_get "poetry" tool = None →
  update_pyproject data v = Raise (KeyError "poetry").
Proof.
  intros Ht Hp. unfold update_pyproject, assign_tool_poetry. simpl.
  rewrite Ht. simpl. by rewrite Hp.
Qed.

Lemma write_pyproject_missing (v : Version) (w : World) :
  files w !! pyproject_file = None →
  rdeny w !! pyproject_file = None →
  write_version_to_pyproject PYPROJECT_FILE_PATH v w
  = (Raise (SystemExit 1), after_print not_found_message w).
Proof.
  intros Hf Hr. unfold write_version_to_pyproject.
  erewrite try_caught with (e := FileNotFoundError) (w' := w); [|..|reflexivity].
  - by erewrite bind_ret.
  - apply bind_raise. unfold toml_load. fold pyproject_file.
    by rewrite Hf, Hr.
Qed.

Lemma write_pyproject_unreadable (v : Version) (w : World) (err : oserror) :
  files w !! pyproject_file = None →
  rdeny w !! pyproject_file = Some err →
  write_version_to_pyproject PYPROJECT_FILE_PATH v w
  = match err with
    | ENOENT => (Raise (SystemExit 1), after_print not_found_message w)
    | EACCES => (Raise PermissionError, w)
    | EISDIR => (Raise IsADirectoryError, w)
    end.
Proof.
  intros Hf Hr.
  assert (Hbody :
    (data <- toml_load (joinpath project_root PYPROJECT_FILE_PATH) ;;
     data <- lift (update_pyproject data v) ;;
     toml_dump data (joinpath project_root PYPROJECT_FILE_PATH)) w
    = (Raise (exn_of_oserror err), w)).
  { apply bind_raise. unfold toml_load. fold pyproject_file.
    by rewrite Hf, Hr. }
  unfold write_version_to_pyproject. destruct err; simpl in Hbody.
  - erewrite try_caught; [|exact Hbody|reflexivity]. by erewrite bind_ret.
  - by erewrite try_uncaught; [|exact Hbody|reflexivity].
  - by erewrite try_uncaught; [|exact Hbody|reflexivity].
Qed.

Lemma write_pyproject_load_error (v : Version) (w : World) (content : string)
  (e : exn) :
  files w !! pyproject_file = Some content →
  toml_loads content = Raise e →
  write_version_to_pyproject PYPROJECT_FILE_PATH v w
  = match e with
    | FileNotFoundError | TypeError =>
        (Raise (SystemExit 1), after_print not_found_message w)
    | TomlDecodeError =>
        (Raise (SystemExit 1), after_print parse_error_message w)
    | _ => (Raise e, w)
    end.
Proof.
  intros Hf Hl. unfold write_version_to_pyproject.
  assert (Hbody :
    (data <- toml_load (joinpath project_root PYPROJECT_FILE_PATH) ;;
     data <- lift (update_pyproject data v) ;;
     toml_dump data (joinpath project_root PYPROJECT_FILE_PATH)) w
    = (Raise e, w)).
  { apply bind_raise. unfold toml_load. fold pyproject_file.
    by rewrite Hf, Hl. }
  destruct e;
    first [ by erewrite try_uncaught; [|exact Hbody|reflexivity]
          | erewrite try_caught; [|exact Hbody|reflexivity];
            by erewrite bind_ret ].
Qed.

Lemma write_pyproject_update_error (v : Version) (w : World)
  (content : string) (data : dict) (e : exn) :
  files w !! pyproject_file = Some content →
  toml_loads content = Ret data →
  update_pyproject data v = Raise e →
  write_version_to_pyproject PYPROJECT_FILE_PATH v w
  = match e with
    | FileNotFoundError | TypeError =>
        (Raise (SystemExit 1), after_print not_found_message w)
    | TomlDecodeError =>
        (Raise (SystemExit 1), after_print parse_error_message w)
    | _ => (Raise e, w)
    end.
Proof.
  intros Hf Hl Hu. unfold write_version_to_pyproject.
  assert (Hbody :
    (data <- toml_load (joinpath project_root PYPROJECT_FILE_PATH) ;;
     data <- lift (update_pyproject data v) ;;
     toml_dump data (joinpath project_root PYPROJECT_FILE_PATH)) w
    = (Raise e, w)).
  { erewrite bind_ret;
      [|unfold toml_load; fold pyproject_file; by rewrite Hf, Hl].
    apply bind_raise. unfold lift. by rewrite Hu. }
  destruct e;
    first [ by erewrite try_uncaught; [|exact Hbody|reflexivity]
          | erewrite try_caught; [|exact Hbody|reflexivity];
            by erewrite bind_ret ].
Qed.

(** A key [tool] or [tool.poetry] that is there but is no table is another
    failure than a missing key: indexing the value raises [TypeError],
    which the first handler catches, with its file-not-found message. *)
Lemma update_pyproject_not_table (data : dict) (x : value) (v : Version) :
  dict_get "tool" data = Some x →
  is_dict x = false
  ∨ (∃ tool y, x = VDict tool ∧ dict_get "poetry" tool = Some y
               ∧ is_dict y = false) →
  update_pyproject data v = Raise TypeError.
Proof.
  intros Ht [Hx | (tool & y & -> & Hp & Hy)];
    unfold update_pyproject, assign_tool_poetry; simpl; rewrite Ht.
  - by destruct x.
  - simpl. rewrite Hp. by destruct y.
Qed.

Lemma write_pyproject_not_table (v : Version) (w : World) (content : string)
  (data : dict) (x : value) :
  files w !! pyproject_file = Some content →
  toml_loads content = Ret data →
  dict_get "tool" data = Some x →
  is_dict x = false
  ∨ (∃ tool y, x = VDict tool ∧ dict_get "poetry" tool = Some y
               ∧ is_dict y = false) →
  write_version_to_pyproject PYPROJECT_FILE_PATH v w
  = (Raise (SystemExit 1), after_print not_found_message w).
Proof.
  intros Hf Hl Ht Hx.
  by rewrite (write_pyproject_update_error v w content data _ Hf Hl
                (update_pyproject_not_table data x v Ht Hx)).
Qed.

Lemma after_write_twice (p s0 s : string) (w : World) :
  after_write p s (after_write p s0 w) = after_write p s w.
Proof. unfold after_write. simpl. by rewrite insert_insert_eq. Qed.

Lemma toml_dump_denied (data : dict) (p : string) (w : World)
  (err : oserror) :
  wdeny w !! p = Some err →
  toml_dump data p w = (Raise (exn_of_oserror err), w).
Proof.
  intros Hw. unfold toml_dump. apply bind_raise. unfold open_w.
  by rewrite Hw.
Qed.

Lemma toml_dump_raises (data : dict) (p : string) (w : World) (e : exn) :
  wdeny w !! p = None →
  toml_dumps data = Raise e →
  toml_dump data p w = (Raise e, after_write p "" w).
Proof.
  intros Hw Hd. unfold toml_dump.
  erewrite bind_ret; [|unfold open_w; by rewrite Hw].
  apply bind_raise. unfold lift. by rewrite Hd.
Qed.

Lemma toml_dump_ok (data : dict) (p text : string) (w : World) :
  wdeny w !! p = None →
  toml_dumps data = Ret text →
  toml_dump data p w = (Ret tt, after_write p text w).
Proof.
  intros Hw Hd. unfold toml_dump.
  erewrite bind_ret; [|unfold open_w; by rewrite Hw].
  erewrite bind_ret; [|unfold lift; by rewrite Hd].
  unfold f_write. by rewrite after_write_twice.
Qed.

Lemma write_pyproject_ok (v : Version) (w : World) (content text : string)
  (data data' : dict) :
  files w !! pyproject_file = Some content →
  toml_loads content = Ret data →
  update_pyproject data v = Ret data' →
  wdeny w !! pyproject_file = None →
  toml_dumps data' = Ret text →
  write_version_to_pyproject PYPROJECT_FILE_PATH v w
  = (Ret tt, after_write pyproject_file text w).
Proof.
  intros Hf Hl Hu Hw Hd. unfold write_version_to_pyproject. apply try_ret.
  erewrite bind_ret;
    [|unfold toml_load; fold pyproject_file; by rewrite Hf, Hl].
  erewrite bind_ret; [|unfold lift; by rewrite Hu].
  by apply toml_dump_ok.
Qed.

(** When [toml.dump] returns a text for the updated manifest, the update
    went through, and gave the data the text is of. *)
Lemma dumped_ok (data tool poetry : dict) (v : Version) (text : string) :
  dict_get "tool" data = Some (VDict tool) →
  dict_get "poetry" tool = Some (VDict poetry) →
  dumped data v = Ret text →
  toml_dumps (nightly_data data tool poetry v) = Ret text.
Proof.
  intros Ht Hp. unfold dumped.
  by rewrite (update_pyproject_ok data tool poetry v Ht Hp).
Qed.

Lemma apart_head_tool (rest : list string) :
  apart ("tool" :: rest) →
  ∃ k2 rest2, rest = k2 :: rest2
    ∧ (k2 = "poetry" →
       ∃ k3 rest3, rest2 = k3 :: rest3
         ∧ k3 ≠ "name" ∧ k3 ≠ "version" ∧ k3 ≠ "packages").
Proof.
  intros Hap.
  assert (Hn : ["tool"; "poetry"; "name"] ∈ nightly_fields)
    by (unfold nightly_fields; rewrite !elem_of_cons; tauto).
  assert (Hv : ["tool"; "poetry"; "version"] ∈ nightly_fields)
    by (unfold nightly_fields; rewrite !elem_of_cons; tauto).
  assert (Hp : ["tool"; "poetry"; "packages"] ∈ nightly_fields)
    by (unfold nightly_fields; rewrite !elem_of_cons; tauto).
  destruct rest as [|k2 rest2].
  { destruct (Hap _ Hn) as [Hpre _]. destruct Hpre. by eexists. }
  exists k2, rest2. split; [done|]. intros ->.
  destruct rest2 as [|k3 rest3].
  { destruct (Hap _ Hn) as [Hpre _]. destruct Hpre. by eexists. }
  exists k3, rest3. split; [done|].
  repeat split; intros ->.
  - destruct (Hap _ Hn) as [_ Hpre]. destruct Hpre. by exists rest3.
  - destruct (Hap _ Hv) as [_ Hpre]. destruct Hpre. by exists rest3.
  - destruct (Hap _ Hp) as [_ Hpre]. destruct Hpre. by exists rest3.
Qed.

Lemma nightly_poetry_other (poetry : dict) (v : Version) (k : string) :
  k ≠ "name" → k ≠ "version" → k ≠ "packages" →
  dict_get k (nightly_poetry poetry v) = dict_get k poetry.
Proof.
  intros Hn Hv Hp. unfold nightly_poetry.
  by rewrite !dict_get_set_ne.
Qed.

Lemma nightly_data_frame (data tool poetry : dict) (v : Version)
  (path : list string) :
  dict_get "tool" data = Some (VDict tool) →
  dict_get "poetry" tool = Some (VDict poetry) →
  apart path →
  lookup_path path (VDict (nightly_data data tool poetry v))
  = lookup_path path (VDict data).
Proof.
  intros Ht Hp Hap. destruct path as [|k1 rest].
  { exfalso. assert (Hn : ["tool"; "poetry"; "name"] ∈ nightly_fields)
      by (unfold nightly_fields; rewrite !elem_of_cons; tauto).
    destruct (Hap _ Hn) as [Hpre _]. apply Hpre. by eexists. }
  unfold nightly_data. cbn [lookup_path].
  destruct (decide (k1 = "tool")) as [->|Hk1];
    [|by rewrite dict_get_set_ne].
  rewrite dict_get_set_eq, Ht.
  destruct (apart_head_tool _ Hap) as (k2 & rest2 & -> & Hk2).
  cbn [lookup_path].
  destruct (decide (k2 = "poetry")) as [->|Hk2'];
    [|by rewrite dict_get_set_ne].
  rewrite dict_get_set_eq, Hp.
  destruct (Hk2 eq_refl) as (k3 & rest3 & -> & Hn & Hv & Hpk).
  cbn [lookup_path]. by rewrite nightly_poetry_other.
Qed.

Lemma nightly_data_fields (data tool poetry : dict) (v : Version) :
  lookup_path ["tool"; "poetry"; "name"]
    (VDict (nightly_data data tool poetry v)) = Some (VStr "rasa-nightly")
  ∧ lookup_path ["tool"; "poetry"; "version"]
      (VDict (nightly_data data tool poetry v))
    = Some (VStr (Version_str v))
  ∧ lookup_path ["tool"; "poetry"; "packages"]
      (VDict (nightly_data data tool poetry v))
    = Some (VList [VDict [("include", VStr "rasa")]]).
Proof.
  unfold nightly_data, nightly_poetry. cbn [lookup_path].
  rewrite !dict_get_set_eq. repeat split.
  - by rewrite !dict_get_set_ne, dict_get_set_eq by done.
  - by rewrite dict_get_set_ne, dict_get_set_eq by done.
Qed.

(** C2, as the code has it. For a manifest that parses and has the table
    [tool.poetry], that can be opened for writing, and for which
    [toml.dump] returns a text once the three assignments are made, the
    rewrite returns and replaces the file by that text. In the data the
    text is made of, every path apart from [tool.poetry.name],
    [tool.poetry.version] and [tool.poetry.packages] leads to the value it
    led to before, and the top-level keys keep their order. The old
    text enters the new one only through the parsed data; nothing else
    changes in the world. *)
Theorem pyproject_rewrite_frame (v : Version) (w : World)
  (content text : string) (data tool poetry : dict) :
  files w !! pyproject_file = Some content →
  toml_loads content = Ret data →
  dict_get "tool" data = Some (VDict tool) →
  dict_get "poetry" tool = Some (VDict poetry) →
  wdeny w !! pyproject_file = None →
  dumped data v = Ret text →
  ∃ data' : dict,
    update_pyproject data v = Ret data'
    ∧ toml_dumps data' = Ret text
    ∧ write_version_to_pyproject PYPROJECT_FILE_PATH v w
      = (Ret tt, after_write pyproject_file text w)
    ∧ (∀ path, apart path →
         lookup_path path (VDict data') = lookup_path path (VDict data))
    ∧ map fst data' = map fst data.
Proof.
  intros Hf Hl Ht Hp Hw Hd.
  pose proof (update_pyproject_ok data tool poetry v Ht Hp) as Hu.
  pose proof (dumped_ok data tool poetry v text Ht Hp Hd) as Hd'.
  exists (nightly_data data tool poetry v).
  split; [exact Hu|]. split; [exact Hd'|]. split.
  { by eapply write_pyproject_ok. }
  split.
  - intros path Hap. by apply nightly_data_frame.
  - unfold nightly_data. by erewrite dict_set_keys.
Qed.

(** Two manifests that parse to the same data are rewritten to the same
    text: what tells them apart is lost. *)
Lemma rewrite_forgets_text (v : Version) (w1 w2 w1' w2' : World)
  (data tool poetry : dict) :
  clean_manifest w1 data tool poetry →
  clean_manifest w2 data tool poetry →
  write_version_to_pyproject PYPROJECT_FILE_PATH v w1 = (Ret tt, w1') →
  write_version_to_pyproject PYPROJECT_FILE_PATH v w2 = (Ret tt, w2') →
  files w1' !! pyproject_file = files w2' !! pyproject_file.
Proof.
  intros (c1 & Hf1 & Hl1 & Ht & Hp) (c2 & Hf2 & Hl2 & _ & _).
  pose proof (update_pyproject_ok data tool poetry v Ht Hp) as Hu.
  assert (Hrun : ∀ (w w' : World) (c : string),
    files w !! pyproject_file = Some c →
    toml_loads c = Ret data →
    write_version_to_pyproject PYPROJECT_FILE_PATH v w = (Ret tt, w') →
    ∃ text, toml_dumps (nightly_data data tool poetry v) = Ret text
            ∧ files w' !! pyproject_file = Some text).
  { intros w w' c Hf Hl. unfold write_version_to_pyproject, try_except.
    erewrite bind_ret;
      [|unfold toml_load; fold pyproject_file; by rewrite Hf, Hl].
    erewrite bind_ret; [|unfold lift; by rewrite Hu].
    fold pyproject_file.
    destruct (wdeny w !! pyproject_file) as [err|] eqn:Hw.
    { rewrite (toml_dump_denied _ _ _ err Hw).
      destruct err; simpl; [by erewrite bind_ret|done|done]. }
    destruct (toml_dumps (nightly_data data tool poetry v)) as [text|e]
      eqn:Hd.
    - rewrite (toml_dump_ok _ _ text _ Hw Hd). intros [= <-].
      exists text. split; [done|]. simpl. by rewrite lookup_insert_eq.
    - rewrite (toml_dump_raises _ _ _ e Hw Hd).
      destruct e; simpl; first [done | by erewrite bind_ret]. }
  intros H1 H2.
  destruct (Hrun w1 w1' c1 Hf1 Hl1 H1) as (t1 & Hd1 & ->).
  destruct (Hrun w2 w2' c2 Hf2 Hl2 H2) as (t2 & Hd2 & ->).
  congruence.
Qed.

(** C4, as the code has it. For a manifest whose parsed data has the
    tables [tool] and [tool.poetry], whatever other keys it has, that can
    be opened for writing and for which [toml.dump] returns a text once
    the three assignments are made, the rewrite returns, the manifest is
    that text, and the data it is the text of has [tool.poetry.name] equal
    to ["rasa-nightly"], [tool.poetry.version] equal to [str(v)] and
    [tool.poetry.packages] equal to [[{"include": "rasa"}]], while every
    top-level key other than [tool] has the value that was parsed. *)
Theorem pyproject_fields_set (v : Version) (w : World)
  (content text : string) (data tool poetry : dict) :
  files w !! pyproject_file = Some content →
  toml_loads content = Ret data →
  dict_get "tool" data = Some (VDict tool) →
  dict_get "poetry" tool = Some (VDict poetry) →
  wdeny w !! pyproject_file = None →
  dumped data v = Ret text →
  ∃ (w' : World) (data' : dict),
    write_version_to_pyproject PYPROJECT_FILE_PATH v w = (Ret tt, w')
    ∧ files w' !! pyproject_file = Some text
    ∧ toml_dumps data' = Ret text
    ∧ lookup_path ["tool"; "poetry"; "name"] (VDict data')
      = Some (VStr "rasa-nightly")
    ∧ lookup_path ["tool"; "poetry"; "version"] (VDict data')
      = Some (VStr (Version_str v))
    ∧ lookup_path ["tool"; "poetry"; "packages"] (VDict data')
      = Some (VList [VDict [("include", VStr "rasa")]])
    ∧ ∀ k : string, k ≠ "tool" → dict_get k data' = dict_get k data.
Proof.
  intros Hf Hl Ht Hp Hw Hd.
  pose proof (update_pyproject_ok data tool poetry v Ht Hp) as Hu.
  pose proof (dumped_ok data tool poetry v text Ht Hp Hd) as Hd'.
  eexists. exists (nightly_data data tool poetry v). split.
  { by eapply write_pyproject_ok. }
  split; [simpl; by rewrite lookup_insert_eq|].
  split; [exact Hd'|].
  destruct (nightly_data_fields data tool poetry v) as (Hn & Hv & Hpk).
  repeat split; [exact Hn|exact Hv|exact Hpk|].
  intros k Hk. unfold nightly_data. by rewrite dict_get_set_ne.
Qed.

(** ** The whole script *)

Lemma last_char_None (s : string) : last_char s = None → s = "".
Proof.
  induction s as [|c s IH]; simpl; [done|]. destruct s; [done|].
  intros Hl. by apply IH in Hl.
Qed.

Lemma last_char_app (a b : string) :
  b ≠ "" → last_char (a ++ b) = last_char b.
Proof.
  intros Hb. induction a as [|c a IH]; [done|].
  change (String c a ++ b) with (String c (a ++ b)).
  destruct (a ++ b) as [|c' s'] eqn:E.
  - symmetry in IH. apply last_char_None in IH. done.
  - exact IH.
Qed.

Lemma last_char_concat (l : list string) (x : string) :
  x ≠ "" → last_char (String.concat "/" (l ++ [x])) = last_char x.
Proof.
  intros Hx. induction l as [|a l IH]; [done|].
  change ((a :: l) ++ [x])%list with (a :: (l ++ [x]))%list.
  destruct (l ++ [x])%list as [|y l'] eqn:E.
  { by destruct l. }
  change (String.concat "/" (a :: y :: l'))
    with (a ++ String "/" (String.concat "/" (y :: l'))).
  rewrite last_char_app by done.
  destruct (String.concat "/" (y :: l')) as [|c s'] eqn:E'; [|exact IH].
  symmetry in IH. apply last_char_None in IH. done.
Qed.

(** The path of a relative [p] below [root] ends with the last component
    of [p]. *)
Lemma joinpath_relative (root p x : string) (ps : list string) :
  String.prefix "/" p = false →
  path_parts p = (ps ++ [x])%list →
  joinpath root p
  = path_root root
    ++ String.concat "/" ((path_parts root ++ ps) ++ [x])%list.
Proof.
  intros Hrel Hparts. unfold joinpath, path_str.
  rewrite Hrel, Hparts, app_assoc, length_app, Nat.add_comm.
  by rewrite andb_false_r.
Qed.

Lemma joinpath_last_char (root p x : string) (ps : list string) :
  String.prefix "/" p = false →
  path_parts p = (ps ++ [x])%list →
  x ≠ "" →
  last_char (joinpath root p) = last_char x.
Proof.
  intros Hrel Hparts Hx. rewrite (joinpath_relative root p x ps Hrel Hparts).
  assert (Hne : String.concat "/" ((path_parts root ++ ps) ++ [x])%list ≠ "").
  { intros Heq. apply Hx, last_char_None.
    by rewrite <- (last_char_concat (path_parts root ++ ps) x Hx), Heq. }
  by rewrite last_char_app, last_char_concat.
Qed.

Lemma version_file_not_pyproject : version_file ≠ pyproject_file.
Proof.
  unfold version_file, pyproject_file. intros Heq.
  apply (f_equal last_char) in Heq.
  rewrite (joinpath_last_char _ VERSION_FILE_PATH "version.py" ["rasa"])
    in Heq by done.
  by rewrite (joinpath_last_char _ PYPROJECT_FILE_PATH "pyproject.toml" [])
    in Heq by done.
Qed.

Lemma main_to_manifest (s : string) (v : Version) (w : World) :
  Version_new (Some s) = Ret v →
  wdeny w !! version_file = None →
  main {| ns_next_version := Some s |} w
  = bind (write_version_to_pyproject PYPROJECT_FILE_PATH v)
      (fun _ => main_tail v) (versioned v w).
Proof.
  intros Hv Hw. unfold main.
  erewrite bind_ret; [|reflexivity].
  erewrite bind_ret; [|by rewrite next_version_run; simpl; rewrite Hv].
  erewrite bind_ret; [|by apply write_version_file_run].
  reflexivity.
Qed.

Lemma versioned_pyproject (v : Version) (w : World) :
  files (versioned v w) !! pyproject_file = files w !! pyproject_file.
Proof.
  unfold versioned. simpl.
  rewrite lookup_insert_ne; [done|]. apply version_file_not_pyproject.
Qed.


Lemma tail_on_branch (v : Version) (w : World) (b o1 o2 : string)
  (r1 r2 : Repo) :
  on_branch w b → b = "main" ∨ b = "ATO-114" →
  subprocess_run (tag_argv (Version_str v)) (repo w) = (0, o1, r1) →
  subprocess_run (push_argv (Version_str v)) r1 = (0, o2, r2) →
  main_tail v w = (Ret tt, released v r1 r2 w).
Proof.
  intros Hon Hb Htag Hpush. unfold main_tail.
  erewrite bind_ret; [|reflexivity]. fold (done_printed v w).
  erewrite bind_ret; [|by apply (on_branch_reads w _ b)].
  erewrite bind_ret;
    [|apply is_main_of_branch; by apply (on_branch_reads w _ b)].
  assert (String.eqb b "main" || String.eqb b "ATO-114" = true) as ->.
  { rewrite orb_true_iff, !String.eqb_eq. done. }
  change (negb true) with false. cbv iota.
  unfold tag_commit, push_tag, print_tag_release_done_message.
  erewrite bind_ret.
  2:{ erewrite bind_ret; [|reflexivity]. unfold check_call. simpl repo.
      rewrite Htag. reflexivity. }
  erewrite bind_ret.
  2:{ erewrite bind_ret; [|reflexivity]. unfold check_call. simpl repo.
      rewrite Hpush. reflexivity. }
  erewrite bind_ret; [|reflexivity]. reflexivity.
Qed.

Lemma main_manifest_written (s : string) (v : Version) (w : World)
  (data tool poetry : dict) (text : string) :
  Version_new (Some s) = Ret v →
  writable w →
  clean_manifest w data tool poetry →
  dumped data v = Ret text →
  main {| ns_next_version := Some s |} w
  = main_tail v (after_write pyproject_file text (versioned v w)).
Proof.
  intros Hv [Hwv Hwp] (content & Hf & Hl & Ht & Hp) Hd.
  rewrite (main_to_manifest s v w Hv Hwv).
  erewrite bind_ret; [reflexivity|].
  eapply write_pyproject_ok; [|exact Hl| |exact Hwp|].
  - by rewrite versioned_pyproject.
  - by apply update_pyproject_ok.
  - by eapply dumped_ok.
Qed.

Lemma main_manifest_rejected (s : string) (v : Version) (w : World)
  (content : string) (e : exn) :
  Version_new (Some s) = Ret v →
  wdeny w !! version_file = None →
  files w !! pyproject_file = Some content →
  toml_loads content = Raise e →
  main {| ns_next_version := Some s |} w
  = match e with
    | FileNotFoundError | TypeError =>
        (Raise (SystemExit 1), after_print not_found_message (versioned v w))
    | TomlDecodeError =>
        (Raise (SystemExit 1), after_print parse_error_message (versioned v w))
    | _ => (Raise e, versioned v w)
    end.
Proof.
  intros Hv Hwv Hf Hl. rewrite (main_to_manifest s v w Hv Hwv).
  assert (Hf' : files (versioned v w) !! pyproject_file = Some content)
    by by rewrite versioned_pyproject.
  pose proof (write_pyproject_load_error v _ content e Hf' Hl) as Hw.
  destruct e; by erewrite bind_raise.
Qed.

Lemma main_manifest_missing (s : string) (v : Version) (w : World) :
  Version_new (Some s) = Ret v →
  wdeny w !! version_file = None →
  files w !! pyproject_file = None →
  rdeny w !! pyproject_file = None →
  main {| ns_next_version := Some s |} w
  = (Raise (SystemExit 1), after_print not_found_message (versioned v w)).
Proof.
  intros Hv Hwv Hf Hr. rewrite (main_to_manifest s v w Hv Hwv).
  apply bind_raise, write_pyproject_missing; [|done].
  by rewrite versioned_pyproject.
Qed.

Lemma main_manifest_update_error (s : string) (v : Version) (w : World)
  (content : string) (data : dict) (e : exn) :
  Version_new (Some s) = Ret v →
  wdeny w !! version_file = None →
  files w !! pyproject_file = Some content →
  toml_loads content = Ret data →
  update_pyproject data v = Raise e →
  main {| ns_next_version := Some s |} w
  = match e with
    | FileNotFoundError | TypeError =>
        (Raise (SystemExit 1), after_print not_found_message (versioned v w))
    | TomlDecodeError =>
        (Raise (SystemExit 1), after_print parse_error_message (versioned v w))
    | _ => (Raise e, versioned v w)
    end.
Proof.
  intros Hv Hwv Hf Hl Hu. rewrite (main_to_manifest s v w Hv Hwv).
  assert (Hf' : files (versioned v w) !! pyproject_file = Some content)
    by by rewrite versioned_pyproject.
  pose proof (write_pyproject_update_error v _ content data e Hf' Hl Hu) as Hw.
  destruct e; by erewrite bind_raise.
Qed.

(** C10. When the manifest exists and parses, and the parsed data has no
    key [tool], or has a table [tool] without a key [poetry], the rewrite
    raises [KeyError]. No handler of the function catches it: it leaves the
    function in the world the function was called in, so no diagnostic was
    printed and the file is as it was. In [main] the exception goes on to
    the top: the script ends with the [KeyError] (a traceback), not with
    the [SystemExit] of [sys.exit(1)], and what it printed is the greeting
    and the path of the version file. *)
Theorem missing_table_raises_KeyError (v : Version) (w : World)
  (content : string) (data : dict) :
  files w !! pyproject_file = Some content →
  toml_loads content = Ret data →
  dict_get "tool" data = None
  ∨ (∃ tool, dict_get "tool" data = Some (VDict tool)
             ∧ dict_get "poetry" tool = None) →
  ∃ key : string,
    (key = "tool" ∨ key = "poetry")
    ∧ write_version_to_pyproject PYPROJECT_FILE_PATH v w
      = (Raise (KeyError key), w)
    ∧ ∀ s : string,
        Version_new (Some s) = Ret v →
        wdeny w !! version_file = None →
        main {| ns_next_version := Some s |} w
        = (Raise (KeyError key), versioned v w)
        ∧ stdout (versioned v w)
          = (stdout w ++ [greeting;
                          ("this is the version file path "
                           ++ version_file)%string])%list.
Proof.
  intros Hf Hl Hlack.
  assert (∃ key, (key = "tool" ∨ key = "poetry")
                 ∧ update_pyproject data v = Raise (KeyError key))
    as (key & Hkey & Hu).
  { destruct Hlack as [Ht | (tool & Ht & Hp)].
    - exists "tool". split; [by left|]. by apply update_pyproject_no_tool.
    - exists "poetry". split; [by right|].
      by eapply update_pyproject_no_poetry. }
  exists key. split; [exact Hkey|]. split.
  - by rewrite (write_pyproject_update_error v w content data _ Hf Hl Hu).
  - intros s Hv Hwv. split.
    + by rewrite (main_manifest_update_error s v w content data _
                    Hv Hwv Hf Hl Hu).
    + simpl. by rewrite <- app_assoc.
Qed.


(** C9, as the code has it. (1) When nothing is at the path of the
    manifest, the rewrite prints the file-not-found diagnostic and raises
    [SystemExit(1)]. (2) When the manifest is there and the TOML parser
    rejects its content with [TomlDecodeError], the rewrite prints the
    parse diagnostic and raises [SystemExit(1)]. In both cases nothing is
    tried again and the file system is untouched by the rewrite. (3) Run
    as a process with a version the constructor accepts, either case ends
    the script with exit status 1. (4) When nothing fails (the version is
    accepted, the files are written, the branch is an allowed one,
    [git tag] and [git push] succeed) the process exits with status 0. *)
Theorem manifest_failures_exit_1 :
  (∀ (v : Version) (w : World),
     files w !! pyproject_file = None →
     rdeny w !! pyproject_file = None →
     write_version_to_pyproject PYPROJECT_FILE_PATH v w
     = (Raise (SystemExit 1),
        after_print ("Unable to update " ++ pyproject_file
                     ++ ": file not found.") w))
  ∧ (∀ (v : Version) (w : World) (content : string),
       files w !! pyproject_file = Some content →
       toml_loads content = Raise TomlDecodeError →
       write_version_to_pyproject PYPROJECT_FILE_PATH v w
       = (Raise (SystemExit 1),
          after_print ("Unable to parse " ++ pyproject_file
                       ++ ": incorrect TOML file.") w))
  ∧ (∀ (s : string) (v : Version) (w : World),
       Version_new (Some s) = Ret v →
       wdeny w !! version_file = None →
       (files w !! pyproject_file = None ∧ rdeny w !! pyproject_file = None)
       ∨ (∃ content, files w !! pyproject_file = Some content
                     ∧ toml_loads content = Raise TomlDecodeError) →
       ∃ w', run_script {| ns_next_version := Some s |} w = (1, w')
             ∧ files w' !! pyproject_file = files w !! pyproject_file
             ∧ calls w' = calls w)
  ∧ (∀ (s : string) (v : Version) (w : World) (data tool poetry : dict)
       (text b o1 o2 : string) (r1 r2 : Repo),
       Version_new (Some s) = Ret v →
       writable w →
       clean_manifest w data tool poetry →
       dumped data v = Ret text →
       on_branch w b → b = "main" ∨ b = "ATO-114" →
       subprocess_run (tag_argv (Version_str v)) (repo w) = (0, o1, r1) →
       subprocess_run (push_argv (Version_str v)) r1 = (0, o2, r2) →
       ∃ w', main {| ns_next_version := Some s |} w = (Ret tt, w')
             ∧ run_script {| ns_next_version := Some s |} w = (0, w')).
Proof.
  split; [intros v w Hf Hr; by apply write_pyproject_missing|].
  split.
  { intros v w content Hf Hl.
    by rewrite (write_pyproject_load_error v w content _ Hf Hl). }
  split.
  - intros s v w Hv Hwv [[Hf Hr] | (content & Hf & Hl)]; eexists.
    + unfold run_script. rewrite (main_manifest_missing s v w Hv Hwv Hf Hr).
      split; [reflexivity|]. split; [|done].
      change (files (after_print not_found_message (versioned v w)))
        with (files (versioned v w)).
      apply versioned_pyproject.
    + unfold run_script.
      rewrite (main_manifest_rejected s v w content _ Hv Hwv Hf Hl).
      split; [reflexivity|]. split; [|done].
      change (files (after_print parse_error_message (versioned v w)))
        with (files (versioned v w)).
      apply versioned_pyproject.
  - intros s v w data tool poetry text b o1 o2 r1 r2 Hv Hw Hclean Hd Hb
      Hallowed Htag Hpush.
    pose proof (main_manifest_written s v w data tool poetry text Hv Hw
                  Hclean Hd) as Hmain.
    set (w3 := after_write pyproject_file text (versioned v w)) in Hmain.
    assert (Hb3 : on_branch w3 b) by exact Hb.
    rewrite (tail_on_branch v w3 b o1 o2 r1 r2 Hb3 Hallowed Htag Hpush)
      in Hmain.
    eexists. split; [exact Hmain|]. unfold run_script. by rewrite Hmain.
Qed.

End Run.

(** * The script on concrete worlds *)

(** The release of 2.4.1.dev3 from [main]: exit status 0, the manifest
    rewritten, the tag made and pushed. *)
Example release_on_main :
  let '(status, w') :=
    run_script ex_args (ex_world (Some "main") (ex_files ex_manifest)) in
  status = 0
  ∧ files w' !! "/repo/pyproject.toml" = Some ex_manifest_nightly
  ∧ repo w' = {| head := Some "main"; tags := ["2.4.1.dev3"];
                 origin_tags := ["2.4.1.dev3"] |}
  ∧ calls w' = [symbolic_ref_argv; symbolic_ref_argv;
                tag_argv "2.4.1.dev3"; push_argv "2.4.1.dev3"].
Proof. vm_compute. repeat split; reflexivity. Qed.

(** The same from [feature/x]: exit status 1, the manifest rewritten all
    the same, no tag. *)
Example release_on_feature_branch :
  let '(status, w') :=
    run_script ex_args (ex_world (Some "feature/x") (ex_files ex_manifest)) in
  status = 1
  ∧ files w' !! "/repo/pyproject.toml" = Some ex_manifest_nightly
  ∧ repo w' = {| head := Some "feature/x"; tags := []; origin_tags := [] |}
  ∧ calls w' = [symbolic_ref_argv; symbolic_ref_argv].
Proof. vm_compute. repeat split; reflexivity. Qed.

Example main_2_is_not_main :
  fst (git_current_branch_is_main (ex_world (Some "main-2") ∅)) = Ret false.
Proof. reflexivity. Qed.

Example missing_manifest_message :
  last (stdout (snd (run_script ex_args (ex_world (Some "main") ∅))))
  = Some "Unable to update /repo/pyproject.toml: file not found.".
Proof. vm_compute. reflexivity. Qed.

Example broken_manifest_message :
  last (stdout (snd (run_script ex_args
                       (ex_world (Some "main") (ex_files ex_manifest_broken)))))
  = Some "Unable to parse /repo/pyproject.toml: incorrect TOML file.".
Proof. vm_compute. reflexivity. Qed.

Example manifest_without_tool :
  let '(o, w') :=
    main ex_args (ex_world (Some "main") (ex_files ex_manifest_no_tool)) in
  o = Raise (KeyError "tool")
  ∧ stdout w' = [greeting; "this is the version file path /repo/rasa/version.py"]
  ∧ files w' !! "/repo/pyproject.toml" = Some ex_manifest_no_tool
  ∧ calls w' = [].
Proof. vm_compute. repeat split; reflexivity. Qed.

Lemma ex_on_branch (b : string) (fs : gmap string string) :
  utf8_valid (codes (b ++ nl)) = true →
  strip (b ++ nl) = b →
  on_branch (ex_world (Some b) fs) b.
Proof.
  intros Hvalid Hstrip. split; [reflexivity|].
  split; [|exact Hstrip]. unfold decode. by rewrite Hvalid.
Defined.



(** C6, with a detached HEAD. *)
Lemma git_current_branch_fallback_witness :
  subprocess_run symbolic_ref_argv (repo (ex_world None ∅))
  = (128, "", repo (ex_world None ∅))
  ∧ git_current_branch (ex_world None ∅)
    = (Ret "main",
       after_call symbolic_ref_argv (repo (ex_world None ∅))
         (ex_world None ∅))
  ∧ git_current_branch_is_main (ex_world None ∅)
    = (Ret true,
       after_call symbolic_ref_argv (repo (ex_world None ∅))
         (ex_world None ∅)).
Proof.
  split; [reflexivity|].
  apply (git_current_branch_fallback (ex_world None ∅) 128 "");
    [reflexivity | discriminate].
Defined.

(** C7, over a version file that held something else. *)
Lemma write_version_file_content_witness :
  wdeny (ex_world (Some "main")
           {[ "/repo/rasa/version.py" := "__version__ = 1" ]})
    !! joinpath project_root VERSION_FILE_PATH = None
  ∧ ∃ w' : World,
      write_version_file VERSION_FILE_PATH "2.4.1.dev3"
        (ex_world (Some "main")
           {[ "/repo/rasa/version.py" := "__version__ = 1" ]})
      = (Ret tt, w')
      ∧ files w' !! joinpath project_root VERSION_FILE_PATH
        = Some ("# this file will automatically be changed," ++ nl ++
                "# do not add anything but the version number here!" ++ nl ++
                "__version__ = " ++ dquote ++ "2.4.1.dev3" ++ dquote ++ nl)
      ∧ ∀ other : string,
          other ≠ joinpath project_root VERSION_FILE_PATH →
          files w' !! other
          = files (ex_world (Some "main")
                     {[ "/repo/rasa/version.py" := "__version__ = 1" ]})
              !! other.
Proof.
  split; [reflexivity|].
  apply (write_version_file_content (H := ex_env) VERSION_FILE_PATH
           "2.4.1.dev3").
  reflexivity.
Defined.

(** C5, on the string [not-a-version] (the empty string is rejected
    too). *)
Lemma invalid_version_writes_nothing_witness :
  (Version_new (Some "not-a-version") = Raise InvalidVersion
   ∧ Version_new (Some "") = Raise InvalidVersion)
  ∧ next_version {| ns_next_version := Some "not-a-version" |}
      (ex_world (Some "main") (ex_files ex_manifest))
    = (Raise InvalidVersion, ex_world (Some "main") (ex_files ex_manifest))
  ∧ ∃ w' : World,
      main {| ns_next_version := Some "not-a-version" |}
        (ex_world (Some "main") (ex_files ex_manifest))
      = (Raise InvalidVersion, w')
      ∧ files w' = files (ex_world (Some "main") (ex_files ex_manifest))
      ∧ stdout w' = [greeting]
      ∧ repo w' = repo (ex_world (Some "main") (ex_files ex_manifest))
      ∧ calls w' = [].
Proof.
  split; [split; reflexivity|].
  apply (invalid_version_writes_nothing (H := ex_env) "not-a-version").
  reflexivity.
Defined.

Lemma ex_manifest_clean (branch : option string) :
  clean_manifest (ex_world branch (ex_files ex_manifest))
    ex_data ex_tool ex_poetry.
Proof. exists ex_manifest. vm_compute. repeat split; reflexivity. Defined.

Lemma ex_writable (branch : option string) (fs : gmap string string) :
  writable (ex_world branch fs).
Proof. split; reflexivity. Defined.

Lemma ex_dumped : dumped ex_data "2.4.1.dev3" = Ret ex_manifest_nightly.
Proof. reflexivity. Defined.

(** C2 as the code has it, on the manifest above. *)
Lemma pyproject_rewrite_frame_witness :
  (files (ex_world (Some "main") (ex_files ex_manifest)) !! pyproject_file
   = Some ex_manifest
   ∧ toml_loads ex_manifest = Ret ex_data
   ∧ dict_get "tool" ex_data = Some (VDict ex_tool)
   ∧ dict_get "poetry" ex_tool = Some (VDict ex_poetry)
   ∧ wdeny (ex_world (Some "main") (ex_files ex_manifest)) !! pyproject_file
     = None
   ∧ dumped ex_data "2.4.1.dev3" = Ret ex_manifest_nightly)
  ∧ ∃ data' : dict,
      update_pyproject ex_data "2.4.1.dev3" = Ret data'
      ∧ toml_dumps data' = Ret ex_manifest_nightly
      ∧ write_version_to_pyproject PYPROJECT_FILE_PATH "2.4.1.dev3"
          (ex_world (Some "main") (ex_files ex_manifest))
        = (Ret tt,
           after_write pyproject_file ex_manifest_nightly
             (ex_world (Some "main") (ex_files ex_manifest)))
      ∧ (∀ path, apart path →
           lookup_path path (VDict data') = lookup_path path (VDict ex_data))
      ∧ map fst data' = map fst ex_data.
Proof.
  split; [repeat split; reflexivity|].
  apply (pyproject_rewrite_frame (H := ex_env) "2.4.1.dev3"
           (ex_world (Some "main") (ex_files ex_manifest))
           ex_manifest ex_manifest_nightly ex_data ex_tool ex_poetry);
    reflexivity.
Defined.

(** C2 as the spec has it fails: the comment line of the manifest, which
    is none of the three fields, is not in the rewritten file. *)
Lemma pyproject_rewrite_drops_comment :
  In "# the nightly build rewrites this file" (split_on "010" ex_manifest)
  ∧ write_version_to_pyproject PYPROJECT_FILE_PATH "2.4.1.dev3"
      (ex_world (Some "main") (ex_files ex_manifest))
    = (Ret tt,
       after_write "/repo/pyproject.toml" ex_manifest_nightly
         (ex_world (Some "main") (ex_files ex_manifest)))
  ∧ ¬ In "# the nightly build rewrites this file"
        (split_on "010" ex_manifest_nightly).
Proof.
  split; [vm_compute; tauto|]. split.
  { apply (write_pyproject_ok (H := ex_env) "2.4.1.dev3"
             (ex_world (Some "main") (ex_files ex_manifest))
             ex_manifest ex_manifest_nightly ex_data
             (nightly_data (H := ex_env) ex_data ex_tool ex_poetry
                "2.4.1.dev3")); reflexivity. }
  vm_compute. intros Hin.
  repeat (destruct Hin as [Hin|Hin]; [discriminate Hin|]). exact Hin.
Qed.

(** C4, on the manifest above: the key [build-system] is the extra one. *)
Lemma pyproject_fields_set_witness :
  (files (ex_world (Some "main") (ex_files ex_manifest)) !! pyproject_file
   = Some ex_manifest
   ∧ toml_loads ex_manifest = Ret ex_data
   ∧ dict_get "tool" ex_data = Some (VDict ex_tool)
   ∧ dict_get "poetry" ex_tool = Some (VDict ex_poetry)
   ∧ wdeny (ex_world (Some "main") (ex_files ex_manifest)) !! pyproject_file
     = None
   ∧ dumped ex_data "2.4.1.dev3" = Ret ex_manifest_nightly)
  ∧ ∃ (w' : World) (data' : dict),
      write_version_to_pyproject PYPROJECT_FILE_PATH "2.4.1.dev3"
        (ex_world (Some "main") (ex_files ex_manifest))
      = (Ret tt, w')
      ∧ files w' !! pyproject_file = Some ex_manifest_nightly
      ∧ toml_dumps data' = Ret ex_manifest_nightly
      ∧ lookup_path ["tool"; "poetry"; "name"] (VDict data')
        = Some (VStr "rasa-nightly")
      ∧ lookup_path ["tool"; "poetry"; "version"] (VDict data')
        = Some (VStr "2.4.1.dev3")
      ∧ lookup_path ["tool"; "poetry"; "packages"] (VDict data')
        = Some (VList [VDict [("include", VStr "rasa")]])
      ∧ ∀ k : string, k ≠ "tool" → dict_get k data' = dict_get k ex_data.
Proof.
  split; [repeat split; reflexivity|].
  apply (pyproject_fields_set (H := ex_env) "2.4.1.dev3"
           (ex_world (Some "main") (ex_files ex_manifest))
           ex_manifest ex_manifest_nightly ex_data ex_tool ex_poetry);
    reflexivity.
Defined.

(** C4 as the spec has it fails: the manifest below parses and has the
    table [tool.poetry]; its description begins with a no-break space, for
    which [toml.dump] raises [IndexError] when the file is already open.
    The rewrite ends with that exception and the manifest is empty: none
    of the three fields is set in it. *)
Lemma pyproject_dump_failure_sets_nothing :
  toml_loads ex_manifest_nbsp = Ret ex_data_nbsp
  ∧ lookup_path ["tool"; "poetry"] (VDict ex_data_nbsp)
    = Some (VDict [("name", VStr "rasa");
                   ("description", VStr (nbsp ++ "nightly builds"))])
  ∧ let '(o, w') :=
      write_version_to_pyproject PYPROJECT_FILE_PATH "2.4.1.dev3"
        (ex_world (Some "main") (ex_files ex_manifest_nbsp)) in
    o = Raise IndexError
    ∧ files w' !! "/repo/pyproject.toml" = Some "".
Proof.
  split; [reflexivity|]. split; [reflexivity|].
  vm_compute. split; reflexivity.
Qed.

(** C10, on a manifest without the table [tool]. *)
Lemma missing_table_raises_KeyError_witness :
  (files (ex_world (Some "main") (ex_files ex_manifest_no_tool))
     !! pyproject_file = Some ex_manifest_no_tool
   ∧ toml_loads ex_manifest_no_tool
     = Ret [("build-system",
             VDict [("build-backend", VStr "setuptools.build_meta")])])
  ∧ ∃ key : string,
      (key = "tool" ∨ key = "poetry")
      ∧ write_version_to_pyproject PYPROJECT_FILE_PATH "2.4.1.dev3"
          (ex_world (Some "main") (ex_files ex_manifest_no_tool))
        = (Raise (KeyError key),
           ex_world (Some "main") (ex_files ex_manifest_no_tool))
      ∧ ∀ s : string,
          Version_new (Some s) = Ret "2.4.1.dev3" →
          wdeny (ex_world (Some "main") (ex_files ex_manifest_no_tool))
            !! version_file = None →
          main {| ns_next_version := Some s |}
            (ex_world (Some "main") (ex_files ex_manifest_no_tool))
          = (Raise (KeyError key),
             versioned "2.4.1.dev3"
               (ex_world (Some "main") (ex_files ex_manifest_no_tool)))
          ∧ stdout (versioned "2.4.1.dev3"
                      (ex_world (Some "main") (ex_files ex_manifest_no_tool)))
            = [greeting; "this is the version file path " ++ version_file].
Proof.
  split; [split; reflexivity|].
  apply (missing_table_raises_KeyError (H := ex_env) "2.4.1.dev3"
           (ex_world (Some "main") (ex_files ex_manifest_no_tool))
           ex_manifest_no_tool
           [("build-system",
             VDict [("build-backend", VStr "setuptools.build_meta")])]);
    [reflexivity | reflexivity | left; reflexivity].
Defined.



(** C9: a missing manifest, a broken one, and a release that goes
    through. *)
Lemma manifest_failures_exit_1_witness :
  (∃ w', run_script ex_args (ex_world (Some "main") ∅) = (1, w'))
  ∧ (∃ w', run_script ex_args
             (ex_world (Some "main") (ex_files ex_manifest_broken)) = (1, w'))
  ∧ (∃ w', run_script ex_args
             (ex_world (Some "main") (ex_files ex_manifest)) = (0, w')).
Proof.
  destruct (manifest_failures_exit_1 (H := ex_env))
    as (Hmissing & Hbroken & Hexit1 & Hexit0).
  split; [|split].
  - destruct (Hexit1 "2.4.1.dev3" "2.4.1.dev3" (ex_world (Some "main") ∅))
      as (w' & Hrun & _);
      [reflexivity | reflexivity | left; split; reflexivity |].
    by exists w'.
  - destruct (Hexit1 "2.4.1.dev3" "2.4.1.dev3"
                (ex_world (Some "main") (ex_files ex_manifest_broken)))
      as (w' & Hrun & _); [reflexivity | reflexivity | |].
    { right. exists ex_manifest_broken. split; reflexivity. }
    by exists w'.
  - destruct (Hexit0 "2.4.1.dev3" "2.4.1.dev3"
                (ex_world (Some "main") (ex_files ex_manifest))
                ex_data ex_tool ex_poetry ex_manifest_nightly "main" "" ""
                {| head := Some "main"; tags := ["2.4.1.dev3"];
                   origin_tags := [] |}
                {| head := Some "main"; tags := ["2.4.1.dev3"];
                   origin_tags := ["2.4.1.dev3"] |})
      as (w' & _ & Hrun);
      [ reflexivity | apply ex_writable | apply ex_manifest_clean
      | apply ex_dumped | by apply ex_on_branch | by left | reflexivity
      | reflexivity | ].
    by exists w'.
Defined.

(** C9 as the spec has it fails: the manifest below is not UTF-8, so it
    is not TOML; [toml.load] raises [UnicodeDecodeError], which no clause
    catches, and the rewrite ends with it having printed nothing. *)
Lemma undecodable_manifest_no_diagnostic :
  toml_loads ex_manifest_not_utf8 = Raise UnicodeDecodeError
  ∧ let '(o, w') :=
      write_version_to_pyproject PYPROJECT_FILE_PATH "2.4.1.dev3"
        (ex_world (Some "main") (ex_files ex_manifest_not_utf8)) in
    o = Raise UnicodeDecodeError
    ∧ stdout w' = [].
Proof. split; [reflexivity|]. vm_compute. split; reflexivity. Qed.

(** * Beyond the claims: the other ways through [main] *)

Section Ways.
Context `{Env}.

Lemma main_tail_guard (v : Version) (w : World) (b : string) :
  (∀ w0 : World,
     repo w0 = repo w →
     git_current_branch w0
     = (Ret b, after_call symbolic_ref_argv (repo w) w0)) →
  main_tail v w
  = (if String.eqb b "main" || String.eqb b "ATO-114"
     then release_part v else refuse_part)
      (after_call symbolic_ref_argv (repo w)
         (after_call symbolic_ref_argv (repo w) (done_printed v w))).
Proof.
  intros Hread. unfold main_tail.
  erewrite bind_ret; [|reflexivity]. fold (done_printed v w).
  erewrite bind_ret; [|by apply Hread].
  erewrite bind_ret; [|apply is_main_of_branch; by apply Hread].
  by destruct (String.eqb b "main" || String.eqb b "ATO-114").
Qed.

Lemma detached_reads (w w0 : World) :
  detached w → repo w0 = repo w →
  git_current_branch w0
  = (Ret "main", after_call symbolic_ref_argv (repo w) w0).
Proof.
  intros (status & out & Hrun & Hst) Hrepo.
  apply git_current_branch_failed with (status := status) (out := out);
    [by rewrite Hrepo|done].
Qed.

Lemma release_part_tag_failed (v : Version) (w : World) (status : Z)
  (o1 : string) (r1 : Repo) :
  subprocess_run (tag_argv (Version_str v)) (repo w) = (status, o1, r1) →
  status ≠ 0 →
  release_part v w
  = (Raise CalledProcessError,
     after_call (tag_argv (Version_str v)) r1
       (after_print ("Applying tag '" ++ Version_str v ++ "' to commit.") w)).
Proof.
  intros Htag Hst. unfold release_part, tag_commit.
  apply bind_raise. erewrite bind_ret; [|reflexivity].
  unfold check_call. simpl repo. rewrite Htag.
  by apply Z.eqb_neq in Hst as ->.
Qed.

Lemma release_part_push_failed (v : Version) (w : World) (status : Z)
  (o1 o2 : string) (r1 r2 : Repo) :
  subprocess_run (tag_argv (Version_str v)) (repo w) = (0, o1, r1) →
  subprocess_run (push_argv (Version_str v)) r1 = (status, o2, r2) →
  status ≠ 0 →
  release_part v w
  = (Raise CalledProcessError,
     after_call (push_argv (Version_str v)) r2
       (after_print ("Pushing tag '" ++ Version_str v ++ "' to origin.")
          (after_call (tag_argv (Version_str v)) r1
             (after_print ("Applying tag '" ++ Version_str v
                           ++ "' to commit.") w)))).
Proof.
  intros Htag Hpush Hst. unfold release_part, tag_commit, push_tag.
  erewrite bind_ret.
  2:{ erewrite bind_ret; [|reflexivity]. unfold check_call. simpl repo.
      rewrite Htag. reflexivity. }
  apply bind_raise. erewrite bind_ret; [|reflexivity].
  unfold check_call. simpl repo. rewrite Hpush.
  by apply Z.eqb_neq in Hst as ->.
Qed.

Lemma release_part_ok (v : Version) (w : World) (o1 o2 : string)
  (r1 r2 : Repo) :
  subprocess_run (tag_argv (Version_str v)) (repo w) = (0, o1, r1) →
  subprocess_run (push_argv (Version_str v)) r1 = (0, o2, r2) →
  release_part v w
  = (Ret tt,
     after_print (esc ++ "[94m All done - tag for version " ++ Version_str v
                  ++ " was added and pushed to the remote " ++ esc ++ "[0m")
       (after_print ""
          (after_call (push_argv (Version_str v)) r2
             (after_print ("Pushing tag '" ++ Version_str v ++ "' to origin.")
                (after_call (tag_argv (Version_str v)) r1
                   (after_print ("Applying tag '" ++ Version_str v
                                 ++ "' to commit.") w)))))).
Proof.
  intros Htag Hpush.
  unfold release_part, tag_commit, push_tag, print_tag_release_done_message.
  erewrite bind_ret.
  2:{ erewrite bind_ret; [|reflexivity]. unfold check_call. simpl repo.
      rewrite Htag. reflexivity. }
  erewrite bind_ret.
  2:{ erewrite bind_ret; [|reflexivity]. unfold check_call. simpl repo.
      rewrite Hpush. reflexivity. }
  erewrite bind_ret; reflexivity.
Qed.

(** [main] up to the guard, when the files are written: what is left is
    the guard's choice, in the world [at_guard]. *)
Lemma main_at_guard (s : string) (v : Version) (w : World)
  (data tool poetry : dict) (text b : string) :
  Version_new (Some s) = Ret v →
  writable w →
  clean_manifest w data tool poetry →
  dumped data v = Ret text →
  (∀ w0 : World,
     repo w0 = repo w →
     git_current_branch w0
     = (Ret b, after_call symbolic_ref_argv (repo w) w0)) →
  main {| ns_next_version := Some s |} w
  = (if String.eqb b "main" || String.eqb b "ATO-114"
     then release_part v else refuse_part)
      (at_guard v text w).
Proof.
  intros Hv Hw Hclean Hd Hread.
  rewrite (main_manifest_written s v w data tool poetry text Hv Hw Hclean Hd).
  by rewrite (main_tail_guard v _ b).
Qed.

Lemma at_guard_fields (v : Version) (text : string) (w : World) :
  files (at_guard v text w) !! version_file = Some (version_file_text v)
  ∧ files (at_guard v text w) !! pyproject_file = Some text
  ∧ stdout (at_guard v text w) = (stdout w ++ transcript_to_guard v)%list
  ∧ calls (at_guard v text w)
    = (calls w ++ [symbolic_ref_argv; symbolic_ref_argv])%list
  ∧ repo (at_guard v text w) = repo w.
Proof.
  unfold at_guard, transcript_to_guard. simpl. split.
  { rewrite lookup_insert_ne by (symmetry; apply version_file_not_pyproject).
    by rewrite lookup_insert_eq. }
  split; [by rewrite lookup_insert_eq|].
  split; [by rewrite <- !app_assoc|].
  split; [by rewrite <- app_assoc|done].
Qed.

Ltac at_guard_facts v text w g :=
  let Hvf := fresh "Hvf" in
  let Hpf := fresh "Hpf" in
  let Hout := fresh "Hout" in
  let Hcalls := fresh "Hcalls" in
  let Hrepo := fresh "Hrepo" in
  pose proof (at_guard_fields v text w) as (Hvf & Hpf & Hout & Hcalls & Hrepo);
  set (g := at_guard v text w) in *; clearbody g.

(** X1. The release from an allowed branch, when nothing fails (the
    version is accepted, both files can be written, the manifest parses,
    has [tool.poetry] and [toml.dump] returns a text for it, [git tag] and
    [git push] succeed): [main] returns; the child processes are, in this
    order, the two readings of the branch,
    [git tag <str(v)> -m "This is an internal development build"] and
    [git push origin <str(v)> --tags]; the repository is the one the push
    left; both files hold the new text; and the lines printed are the
    greeting, the path of the version file, the first closing message
    between two empty lines, the two announcements, an empty line and the
    closing message of the release. *)
Theorem release_tags_then_pushes (s : string) (v : Version) (w : World)
  (data tool poetry : dict) (text b o1 o2 : string) (r1 r2 : Repo) :
  Version_new (Some s) = Ret v →
  writable w →
  clean_manifest w data tool poetry →
  dumped data v = Ret text →
  on_branch w b → b = "main" ∨ b = "ATO-114" →
  subprocess_run (tag_argv (Version_str v)) (repo w) = (0, o1, r1) →
  subprocess_run (push_argv (Version_str v)) r1 = (0, o2, r2) →
  ∃ w' : World,
    main {| ns_next_version := Some s |} w = (Ret tt, w')
    ∧ calls w'
      = (calls w ++ [["git"; "symbolic-ref"; "--short"; "HEAD"];
                     ["git"; "symbolic-ref"; "--short"; "HEAD"];
                     ["git"; "tag"; Version_str v; "-m";
                      "This is an internal development build"];
                     ["git"; "push"; "origin"; Version_str v; "--tags"]])%list
    ∧ repo w' = r2
    ∧ files w' !! version_file
      = Some ("# this file will automatically be changed," ++ nl ++
              "# do not add anything but the version number here!" ++ nl ++
              "__version__ = " ++ dquote ++ Version_str v ++ dquote ++ nl)
    ∧ files w' !! pyproject_file = Some text
    ∧ stdout w'
      = (stdout w
         ++ [ "The release script will temporarily change the version number to a nightly version. Let's go!";
              ("this is the version file path " ++ version_file)%string;
              "";
              (esc ++ "[94m All done - changes for rasa nightly version "
               ++ Version_str v ++ " are ready! " ++ esc ++ "[0m")%string;
              "";
              ("Applying tag '" ++ Version_str v ++ "' to commit.")%string;
              ("Pushing tag '" ++ Version_str v ++ "' to origin.")%string;
              "";
              (esc ++ "[94m All done - tag for version " ++ Version_str v
               ++ " was added and pushed to the remote " ++ esc
               ++ "[0m")%string ])%list.
Proof.
  intros Hv Hw Hclean Hd Hb Hallowed Htag Hpush.
  rewrite (main_at_guard s v w data tool poetry text b Hv Hw Hclean Hd)
    by (intros w0; by apply on_branch_reads).
  assert (String.eqb b "main" || String.eqb b "ATO-114" = true) as ->.
  { rewrite orb_true_iff, !String.eqb_eq. done. }
  rewrite (release_part_ok v (at_guard v text w) o1 o2 r1 r2 Htag Hpush).
  at_guard_facts v text w g.
  eexists. split; [reflexivity|]. simpl.
  rewrite Hcalls, Hout, <- !app_assoc. done.
Qed.

(** X2. When [git tag] fails (the tag exists, say) in a run that got as
    far (the version accepted, both files written, the branch an allowed
    one), [main] ends with [CalledProcessError], which nothing catches:
    the process exits with status 1, no [git push] was run, the last line
    printed is the announcement of the tag, and the two files stay
    rewritten. *)
Theorem tag_failure_stops_before_push (s : string) (v : Version) (w : World)
  (data tool poetry : dict) (text b o1 : string) (status : Z) (r1 : Repo) :
  Version_new (Some s) = Ret v →
  writable w →
  clean_manifest w data tool poetry →
  dumped data v = Ret text →
  on_branch w b → b = "main" ∨ b = "ATO-114" →
  subprocess_run (tag_argv (Version_str v)) (repo w) = (status, o1, r1) →
  status ≠ 0 →
  ∃ w' : World,
    main {| ns_next_version := Some s |} w = (Raise CalledProcessError, w')
    ∧ run_script {| ns_next_version := Some s |} w = (1, w')
    ∧ calls w'
      = (calls w ++ [["git"; "symbolic-ref"; "--short"; "HEAD"];
                     ["git"; "symbolic-ref"; "--short"; "HEAD"];
                     ["git"; "tag"; Version_str v; "-m";
                      "This is an internal development build"]])%list
    ∧ last (stdout w')
      = Some ("Applying tag '" ++ Version_str v ++ "' to commit.")
    ∧ files w' !! version_file
      = Some ("# this file will automatically be changed," ++ nl ++
              "# do not add anything but the version number here!" ++ nl ++
              "__version__ = " ++ dquote ++ Version_str v ++ dquote ++ nl)
    ∧ files w' !! pyproject_file = Some text.
Proof.
  intros Hv Hw Hclean Hd Hb Hallowed Htag Hst.
  pose proof (main_at_guard s v w data tool poetry text b Hv Hw Hclean Hd)
    as Hmain.
  rewrite Hmain by (intros w0; by apply on_branch_reads).
  unfold run_script.
  rewrite Hmain by (intros w0; by apply on_branch_reads). clear Hmain.
  assert (String.eqb b "main" || String.eqb b "ATO-114" = true) as ->.
  { rewrite orb_true_iff, !String.eqb_eq. done. }
  rewrite (release_part_tag_failed v (at_guard v text w) status o1 r1 Htag
             Hst).
  at_guard_facts v text w g.
  eexists. split; [reflexivity|]. split; [reflexivity|]. simpl.
  rewrite last_snoc, Hcalls, <- !app_assoc. done.
Qed.

(** X3. When the tag is made and [git push] fails, in a run that got as
    far, [main] ends with [CalledProcessError] and exit status 1 right
    after the push: the closing message is not printed, and no further
    child process runs, so the tag that was made is not taken back; the
    repository is the one the failed push left. *)
Theorem push_failure_leaves_tag (s : string) (v : Version) (w : World)
  (data tool poetry : dict) (text b o1 o2 : string) (status : Z)
  (r1 r2 : Repo) :
  Version_new (Some s) = Ret v →
  writable w →
  clean_manifest w data tool poetry →
  dumped data v = Ret text →
  on_branch w b → b = "main" ∨ b = "ATO-114" →
  subprocess_run (tag_argv (Version_str v)) (repo w) = (0, o1, r1) →
  subprocess_run (push_argv (Version_str v)) r1 = (status, o2, r2) →
  status ≠ 0 →
  ∃ w' : World,
    main {| ns_next_version := Some s |} w = (Raise CalledProcessError, w')
    ∧ run_script {| ns_next_version := Some s |} w = (1, w')
    ∧ calls w'
      = (calls w ++ [["git"; "symbolic-ref"; "--short"; "HEAD"];
                     ["git"; "symbolic-ref"; "--short"; "HEAD"];
                     ["git"; "tag"; Version_str v; "-m";
                      "This is an internal development build"];
                     ["git"; "push"; "origin"; Version_str v; "--tags"]])%list
    ∧ repo w' = r2
    ∧ last (stdout w')
      = Some ("Pushing tag '" ++ Version_str v ++ "' to origin.").
Proof.
  intros Hv Hw Hclean Hd Hb Hallowed Htag Hpush Hst.
  pose proof (main_at_guard s v w data tool poetry text b Hv Hw Hclean Hd)
    as Hmain.
  rewrite Hmain by (intros w0; by apply on_branch_reads).
  unfold run_script.
  rewrite Hmain by (intros w0; by apply on_branch_reads). clear Hmain.
  assert (String.eqb b "main" || String.eqb b "ATO-114" = true) as ->.
  { rewrite orb_true_iff, !String.eqb_eq. done. }
  rewrite (release_part_push_failed v (at_guard v text w) status o1 o2 r1 r2
             Htag Hpush Hst).
  at_guard_facts v text w g.
  eexists. split; [reflexivity|]. split; [reflexivity|]. simpl.
  rewrite last_snoc, Hcalls, <- !app_assoc. done.
Qed.

(** X4. With a detached HEAD (reading the symbolic ref fails both times),
    in a run in which both files were written, [main] takes the branch to
    be ["main"]: it does not refuse, it tags the commit and pushes the
    tag, and returns when both succeed. *)
Theorem detached_head_is_released (s : string) (v : Version) (w : World)
  (data tool poetry : dict) (text o1 o2 : string) (r1 r2 : Repo) :
  Version_new (Some s) = Ret v →
  writable w →
  clean_manifest w data tool poetry →
  dumped data v = Ret text →
  detached w →
  subprocess_run (tag_argv (Version_str v)) (repo w) = (0, o1, r1) →
  subprocess_run (push_argv (Version_str v)) r1 = (0, o2, r2) →
  ∃ w' : World,
    main {| ns_next_version := Some s |} w = (Ret tt, w')
    ∧ run_script {| ns_next_version := Some s |} w = (0, w')
    ∧ calls w'
      = (calls w ++ [["git"; "symbolic-ref"; "--short"; "HEAD"];
                     ["git"; "symbolic-ref"; "--short"; "HEAD"];
                     ["git"; "tag"; Version_str v; "-m";
                      "This is an internal development build"];
                     ["git"; "push"; "origin"; Version_str v; "--tags"]])%list
    ∧ repo w' = r2.
Proof.
  intros Hv Hw Hclean Hd Hdet Htag Hpush.
  pose proof (main_at_guard s v w data tool poetry text "main" Hv Hw Hclean
                Hd) as Hmain.
  rewrite Hmain by (intros w0; by apply detached_reads).
  unfold run_script.
  rewrite Hmain by (intros w0; by apply detached_reads). clear Hmain.
  change (String.eqb "main" "main" || String.eqb "main" "ATO-114") with true.
  cbv iota.
  rewrite (release_part_ok v (at_guard v text w) o1 o2 r1 r2 Htag Hpush).
  at_guard_facts v text w g.
  eexists. split; [reflexivity|]. split; [reflexivity|]. simpl.
  rewrite Hcalls, <- !app_assoc. done.
Qed.

(** X5. On a refused branch (one whose name has no white space at its ends
    and is neither ["main"] nor ["ATO-114"]), in a run in which both files
    were written, the script has already told the user that all is done:
    what it prints is the greeting, the path of the version file, the
    closing message for the file changes between two empty lines, and only
    then the warning. *)
Theorem refused_branch_transcript (s : string) (v : Version) (w : World)
  (data tool poetry : dict) (text b : string) :
  Version_new (Some s) = Ret v →
  writable w →
  clean_manifest w data tool poetry →
  dumped data v = Ret text →
  on_branch w b → b ≠ "main" → b ≠ "ATO-114" →
  stdout (snd (main {| ns_next_version := Some s |} w))
  = (stdout w
     ++ [ "The release script will temporarily change the version number to a nightly version. Let's go!";
          ("this is the version file path "
           ++ joinpath project_root "rasa/version.py")%string;
          "";
          (esc ++ "[94m All done - changes for rasa nightly version "
           ++ Version_str v ++ " are ready! " ++ esc ++ "[0m")%string;
          "";
          (nl ++ "    You are currently not on the main branch." ++
           nl ++ "    Nightly release should only happen from main branch."
           ++ nl ++ "            ")%string ])%list.
Proof.
  intros Hv Hw Hclean Hd Hb Hm Ha.
  rewrite (main_at_guard s v w data tool poetry text b Hv Hw Hclean Hd)
    by (intros w0; by apply on_branch_reads).
  apply String.eqb_neq in Hm, Ha. rewrite Hm, Ha. cbn [orb].
  at_guard_facts v text w g.
  unfold refuse_part. erewrite bind_ret; [|reflexivity]. simpl.
  rewrite Hout. unfold transcript_to_guard. by rewrite <- !app_assoc.
Qed.

End Ways.

(** * Beyond the claims: what fails, and how *)

Section Failures.
Context `{Env}.

(** X6. The version is resolved before anything else is done: whatever
    the [Version] constructor raises, for a string or for the [None] of an
    absent [--next_version], ends [main] with that exception when only the
    greeting has been printed; no file is written and no child process
    run. *)
Theorem version_error_before_any_effect (args : Namespace) (w : World)
  (e : exn) :
  Version_new (ns_next_version args) = Raise e →
  main args w = (Raise e, after_print greeting w)
  ∧ files (snd (main args w)) = files w
  ∧ calls (snd (main args w)) = calls w
  ∧ repo (snd (main args w)) = repo w.
Proof.
  intros Hbad.
  assert (Hmain : main args w = (Raise e, after_print greeting w)).
  { unfold main. erewrite bind_ret; [|reflexivity].
    apply bind_raise. by rewrite next_version_run; simpl; rewrite Hbad. }
  by rewrite Hmain.
Qed.

(** X7. When the version file cannot be opened for writing, [main] ends
    with the error of [open] (nothing catches it, exit status 1) before
    the manifest is looked at: no file has changed, and the output is the
    greeting and the path of the version file. *)
Theorem version_file_unwritable (s : string) (v : Version) (w : World)
  (err : oserror) :
  Version_new (Some s) = Ret v →
  wdeny w !! version_file = Some err →
  ∃ w' : World,
    main {| ns_next_version := Some s |} w = (Raise (exn_of_oserror err), w')
    ∧ run_script {| ns_next_version := Some s |} w = (1, w')
    ∧ files w' = files w
    ∧ stdout w'
      = (stdout w ++ [greeting;
                      ("this is the version file path "
                       ++ version_file)%string])%list
    ∧ calls w' = calls w.
Proof.
  intros Hv Hdeny.
  assert (Hmain :
    main {| ns_next_version := Some s |} w
    = (Raise (exn_of_oserror err),
       after_print ("this is the version file path " ++ version_file)
         (after_print greeting w))).
  { unfold main. erewrite bind_ret; [|reflexivity].
    erewrite bind_ret; [|by rewrite next_version_run; simpl; rewrite Hv].
    apply bind_raise. unfold write_version_file.
    erewrite bind_ret; [|reflexivity].
    unfold write_text. simpl. fold version_file. by rewrite Hdeny. }
  eexists. split; [exact Hmain|]. unfold run_script. rewrite Hmain.
  split; [by destruct err|]. simpl. by rewrite <- app_assoc.
Qed.

Lemma write_pyproject_denied (v : Version) (w : World) (content : string)
  (data data' : dict) (err : oserror) :
  files w !! pyproject_file = Some content →
  toml_loads content = Ret data →
  update_pyproject data v = Ret data' →
  wdeny w !! pyproject_file = Some err →
  write_version_to_pyproject PYPROJECT_FILE_PATH v w
  = match err with
    | ENOENT => (Raise (SystemExit 1), after_print not_found_message w)
    | EACCES => (Raise PermissionError, w)
    | EISDIR => (Raise IsADirectoryError, w)
    end.
Proof.
  intros Hf Hl Hu Hdeny.
  assert (Hbody :
    (data <- toml_load (joinpath project_root PYPROJECT_FILE_PATH) ;;
     data <- lift (update_pyproject data v) ;;
     toml_dump data (joinpath project_root PYPROJECT_FILE_PATH)) w
    = (Raise (exn_of_oserror err), w)).
  { erewrite bind_ret;
      [|unfold toml_load; fold pyproject_file; by rewrite Hf, Hl].
    erewrite bind_ret; [|unfold lift; by rewrite Hu].
    by apply toml_dump_denied. }
  unfold write_version_to_pyproject. destruct err; simpl in Hbody.
  - erewrite try_caught; [|exact Hbody|reflexivity]. by erewrite bind_ret.
  - by erewrite try_uncaught; [|exact Hbody|reflexivity].
  - by erewrite try_uncaught; [|exact Hbody|reflexivity].
Qed.

Lemma write_pyproject_dump_error (v : Version) (w : World)
  (content : string) (data data' : dict) (e : exn) :
  files w !! pyproject_file = Some content →
  toml_loads content = Ret data →
  update_pyproject data v = Ret data' →
  wdeny w !! pyproject_file = None →
  toml_dumps data' = Raise e →
  write_version_to_pyproject PYPROJECT_FILE_PATH v w
  = match e with
    | FileNotFoundError | TypeError =>
        (Raise (SystemExit 1),
         after_print not_found_message (after_write pyproject_file "" w))
    | TomlDecodeError =>
        (Raise (SystemExit 1),
         after_print parse_error_message (after_write pyproject_file "" w))
    | _ => (Raise e, after_write pyproject_file "" w)
    end.
Proof.
  intros Hf Hl Hu Hw Hd.
  assert (Hbody :
    (data <- toml_load (joinpath project_root PYPROJECT_FILE_PATH) ;;
     data <- lift (update_pyproject data v) ;;
     toml_dump data (joinpath project_root PYPROJECT_FILE_PATH)) w
    = (Raise e, after_write pyproject_file "" w)).
  { erewrite bind_ret;
      [|unfold toml_load; fold pyproject_file; by rewrite Hf, Hl].
    erewrite bind_ret; [|unfold lift; by rewrite Hu].
    by apply toml_dump_raises. }
  unfold write_version_to_pyproject.
  destruct e;
    first [ by erewrite try_uncaught; [|exact Hbody|reflexivity]
          | erewrite try_caught; [|exact Hbody|reflexivity];
            by erewrite bind_ret ].
Qed.

(** X8. When the manifest parses and has its tables but cannot be opened
    for writing, the outcome depends on the error of [open]:
    [FileNotFoundError] is caught by the first handler, which prints the
    file-not-found message and exits with 1; [PermissionError] and
    [IsADirectoryError] are not caught and leave the function with nothing
    printed. Either way no file has changed. *)
Theorem manifest_unwritable (v : Version) (w : World)
  (data tool poetry : dict) (err : oserror) :
  clean_manifest w data tool poetry →
  wdeny w !! pyproject_file = Some err →
  write_version_to_pyproject PYPROJECT_FILE_PATH v w
  = match err with
    | ENOENT => (Raise (SystemExit 1), after_print not_found_message w)
    | EACCES => (Raise PermissionError, w)
    | EISDIR => (Raise IsADirectoryError, w)
    end
  ∧ files (snd (write_version_to_pyproject PYPROJECT_FILE_PATH v w))
    = files w.
Proof.
  intros (content & Hf & Hl & Ht & Hp) Hdeny.
  pose proof (write_pyproject_denied v w content data _ err Hf Hl
                (update_pyproject_ok data tool poetry v Ht Hp) Hdeny) as Hrun.
  split; [exact Hrun|]. rewrite Hrun. by destruct err.
Qed.

(** X9. A manifest in which [tool], or [tool.poetry], is there but is not
    a table (a string, a number, an array) makes the assignment raise
    [TypeError], which the first handler takes: the script prints that the
    file was not found, although it was read, and exits with 1; the file
    is as it was. *)
Theorem non_table_reported_as_not_found (v : Version) (w : World)
  (content : string) (data : dict) (x : value) :
  files w !! pyproject_file = Some content →
  toml_loads content = Ret data →
  dict_get "tool" data = Some x →
  is_dict x = false
  ∨ (∃ tool y, x = VDict tool ∧ dict_get "poetry" tool = Some y
               ∧ is_dict y = false) →
  write_version_to_pyproject PYPROJECT_FILE_PATH v w
  = (Raise (SystemExit 1),
     after_print ("Unable to update " ++ pyproject_file
                  ++ ": file not found.") w)
  ∧ files (snd (write_version_to_pyproject PYPROJECT_FILE_PATH v w))
      !! pyproject_file = Some content.
Proof.
  intros Hf Hl Ht Hx.
  rewrite (write_pyproject_not_table v w content data x Hf Hl Ht Hx).
  by split.
Qed.

(** X10. The handlers of the rewrite take three exceptions and no other:
    an exception of [toml.load] that is none of [FileNotFoundError],
    [TypeError] and [TomlDecodeError] leaves the function as it is, with
    nothing printed and the world unchanged. *)
Theorem other_load_errors_propagate (v : Version) (w : World)
  (content : string) (e : exn) :
  files w !! pyproject_file = Some content →
  toml_loads content = Raise e →
  e ≠ FileNotFoundError → e ≠ TypeError → e ≠ TomlDecodeError →
  write_version_to_pyproject PYPROJECT_FILE_PATH v w = (Raise e, w).
Proof.
  intros Hf Hl H1 H2 H3.
  rewrite (write_pyproject_load_error v w content e Hf Hl).
  by destruct e.
Qed.

(** X11. The fallback to ["main"] is for a failed child process only:
    when [git symbolic-ref] succeeds and its output is not UTF-8,
    [git_current_branch] raises [UnicodeDecodeError], and so does the
    guard. *)
Theorem undecodable_branch_raises (w : World) (out : string) (r : Repo) :
  subprocess_run symbolic_ref_argv (repo w) = (0, out, r) →
  utf8_valid (codes out) = false →
  git_current_branch w
  = (Raise UnicodeDecodeError, after_call symbolic_ref_argv r w)
  ∧ git_current_branch_is_main w
    = (Raise UnicodeDecodeError, after_call symbolic_ref_argv r w).
Proof.
  intros Hrun Hbad.
  assert (Hb : git_current_branch w
               = (Raise UnicodeDecodeError, after_call symbolic_ref_argv r w)).
  { unfold git_current_branch.
    apply try_uncaught; [|done].
    erewrite bind_ret; [|unfold check_output; by rewrite Hrun].
    apply bind_raise. unfold lift, decode. by rewrite Hbad. }
  split; [exact Hb|].
  unfold git_current_branch_is_main. by apply bind_raise.
Qed.

(** X18. The manifest is opened for writing before [toml.dump] makes its
    text. When the manifest parses, has its tables and can be opened, and
    [toml.dump] raises, the rewrite leaves the manifest empty: the old
    content is gone and none is written. The exception goes the way of
    any other in the [try]: [FileNotFoundError] and [TypeError] give the
    file-not-found message and [SystemExit(1)], [TomlDecodeError] gives the
    parse message and [SystemExit(1)], and every other one leaves the
    function with nothing printed. *)
Theorem dump_failure_empties_manifest (v : Version) (w : World)
  (data tool poetry : dict) (e : exn) :
  clean_manifest w data tool poetry →
  wdeny w !! pyproject_file = None →
  dumped data v = Raise e →
  files (snd (write_version_to_pyproject PYPROJECT_FILE_PATH v w))
    !! pyproject_file = Some ""
  ∧ fst (write_version_to_pyproject PYPROJECT_FILE_PATH v w)
    = match e with
      | FileNotFoundError | TypeError | TomlDecodeError =>
          Raise (SystemExit 1)
      | _ => Raise e
      end
  ∧ stdout (snd (write_version_to_pyproject PYPROJECT_FILE_PATH v w))
    = (stdout w
       ++ match e with
          | FileNotFoundError | TypeError =>
              [("Unable to update " ++ pyproject_file
                ++ ": file not found.")%string]
          | TomlDecodeError =>
              [("Unable to parse " ++ pyproject_file
                ++ ": incorrect TOML file.")%string]
          | _ => []
          end)%list.
Proof.
  intros (content & Hf & Hl & Ht & Hp) Hw Hd.
  pose proof (update_pyproject_ok data tool poetry v Ht Hp) as Hu.
  unfold dumped in Hd. rewrite Hu in Hd. cbn [obind] in Hd.
  rewrite (write_pyproject_dump_error v w content data _ e Hf Hl Hu Hw Hd).
  destruct e; simpl; rewrite ?app_nil_r, lookup_insert_eq; done.
Qed.

(** X19. When something other than a regular file that can be read is at
    the path of the manifest, the error of [open] decides what happens:
    for a directory ([IsADirectoryError]) and for a file that may not be
    read ([PermissionError]) no clause matches, and the exception leaves
    the function with nothing printed; only [FileNotFoundError] gets the
    file-not-found message and [SystemExit(1)]. Either way no file has
    changed. *)
Theorem unreadable_manifest (v : Version) (w : World) (err : oserror) :
  files w !! pyproject_file = None →
  rdeny w !! pyproject_file = Some err →
  write_version_to_pyproject PYPROJECT_FILE_PATH v w
  = match err with
    | ENOENT =>
        (Raise (SystemExit 1),
         after_print ("Unable to update " ++ pyproject_file
                      ++ ": file not found.") w)
    | EACCES => (Raise PermissionError, w)
    | EISDIR => (Raise IsADirectoryError, w)
    end
  ∧ files (snd (write_version_to_pyproject PYPROJECT_FILE_PATH v w))
    = files w.
Proof.
  intros Hf Hr.
  pose proof (write_pyproject_unreadable v w err Hf Hr) as Hrun.
  split; [exact Hrun|]. rewrite Hrun. by destruct err.
Qed.

End Failures.


(** * Beyond the claims: the three assignments *)

Lemma dict_set_same (k : string) (v : value) (d : dict) :
  dict_get k d = Some v → dict_set k v d = d.
Proof.
  induction d as [|[k' v'] d IH]; simpl; [done|].
  destruct (String.eqb k k') eqn:E.
  - intros [= ->]. done.
  - intros Hd. by rewrite IH.
Qed.

Lemma dict_set_over (k k' : string) (v v0 v' : value) (d : dict) :
  k ≠ k' →
  dict_set k v (dict_set k' v' (dict_set k v0 d))
  = dict_set k' v' (dict_set k v d).
Proof.
  intros Hne.
  assert (Hkk' : String.eqb k k' = false) by by apply String.eqb_neq.
  assert (Hk'k : String.eqb k' k = false)
    by (apply String.eqb_neq; congruence).
  induction d as [|[k0 x] d IH]; simpl.
  - rewrite Hk'k. simpl. by rewrite String.eqb_refl.
  - destruct (String.eqb k k0) eqn:E; simpl.
    + apply String.eqb_eq in E. subst k0. rewrite Hk'k. simpl.
      by rewrite String.eqb_refl.
    + destruct (String.eqb k' k0) eqn:E'; simpl; rewrite E.
      * by rewrite dict_set_set.
      * by rewrite IH.
Qed.

Lemma dict_set_keys_new (k : string) (v : value) (d : dict) :
  map fst (dict_set k v d) = (map fst d ++ appended k d)%list.
Proof.
  unfold appended. induction d as [|[k' v'] d IH]; simpl; [done|].
  destruct (String.eqb k k') eqn:E; simpl.
  - by rewrite app_nil_r.
  - rewrite IH. by destruct (dict_get k d).
Qed.

Section Assignments.
Context `{Env}.

Lemma update_pyproject_inv (data data' : dict) (v : Version) :
  update_pyproject data v = Ret data' →
  ∃ tool poetry,
    dict_get "tool" data = Some (VDict tool)
    ∧ dict_get "poetry" tool = Some (VDict poetry)
    ∧ data' = nightly_data data tool poetry v.
Proof.
  intros Hu.
  destruct (dict_get "tool" data) as [x|] eqn:Ht.
  2:{ by rewrite (update_pyproject_no_tool data v Ht) in Hu. }
  destruct x as [| | | | |tool];
    try (rewrite (update_pyproject_not_table data _ v Ht) in Hu;
         [done | by left]).
  destruct (dict_get "poetry" tool) as [y|] eqn:Hp.
  2:{ by rewrite (update_pyproject_no_poetry data tool v Ht Hp) in Hu. }
  destruct y as [| | | | |poetry];
    try (rewrite (update_pyproject_not_table data _ v Ht) in Hu;
         [done | right; by eexists _, _]).
  exists tool, poetry. rewrite (update_pyproject_ok data tool poetry v Ht Hp)
    in Hu. by injection Hu as <-.
Qed.

Lemma nightly_poetry_again (poetry : dict) (v1 v2 : Version) :
  nightly_poetry (nightly_poetry poetry v1) v2 = nightly_poetry poetry v2.
Proof.
  unfold nightly_poetry.
  rewrite (dict_set_same "name").
  2:{ by rewrite !dict_get_set_ne, dict_get_set_eq by done. }
  rewrite (dict_set_over "version" "packages") by done.
  by rewrite dict_set_set.
Qed.

(** X12. The three assignments done again, for the same or for another
    version, give what they give when done once for the later version:
    the rewrite of a manifest that is already a nightly one changes the
    version and nothing else, and for the same version changes nothing. *)
Theorem update_pyproject_again (data data1 : dict) (v1 v2 : Version) :
  update_pyproject data v1 = Ret data1 →
  update_pyproject data1 v2 = update_pyproject data v2
  ∧ update_pyproject data1 v1 = Ret data1.
Proof.
  intros Hu.
  destruct (update_pyproject_inv data data1 v1 Hu)
    as (tool & poetry & Ht & Hp & ->).
  assert (Hagain : ∀ v,
    update_pyproject (nightly_data data tool poetry v1) v
    = Ret (nightly_data data tool poetry v)).
  { intros v.
    erewrite update_pyproject_ok;
      [|unfold nightly_data; apply dict_get_set_eq|apply dict_get_set_eq].
    unfold nightly_data. by rewrite !dict_set_set, nightly_poetry_again. }
  split.
  - by rewrite Hagain, (update_pyproject_ok data tool poetry v2 Ht Hp).
  - apply Hagain.
Qed.

(** X13. The order of the keys, which is the order [toml.dump] writes
    them in: in [tool.poetry] the keys that were there keep their places,
    and those of [name], [version] and [packages] that were missing come
    after them, in this order; the keys of [tool] and of the top level are
    the same as before. *)
Theorem update_pyproject_key_order (data data' tool poetry : dict)
  (v : Version) :
  dict_get "tool" data = Some (VDict tool) →
  dict_get "poetry" tool = Some (VDict poetry) →
  update_pyproject data v = Ret data' →
  ∃ tool' poetry',
    dict_get "tool" data' = Some (VDict tool')
    ∧ dict_get "poetry" tool' = Some (VDict poetry')
    ∧ map fst data' = map fst data
    ∧ map fst tool' = map fst tool
    ∧ map fst poetry'
      = (map fst poetry ++ appended "name" poetry
         ++ appended "version" poetry ++ appended "packages" poetry)%list.
Proof.
  intros Ht Hp Hu.
  rewrite (update_pyproject_ok data tool poetry v Ht Hp) in Hu.
  injection Hu as <-.
  exists (dict_set "poetry" (VDict (nightly_poetry poetry v)) tool),
         (nightly_poetry poetry v).
  unfold nightly_data. rewrite !dict_get_set_eq.
  split; [done|]. split; [done|].
  split; [by erewrite dict_set_keys|].
  split; [by erewrite dict_set_keys|].
  unfold nightly_poetry. rewrite !dict_set_keys_new, <- !app_assoc.
  unfold appended. by rewrite !dict_get_set_ne by done.
Qed.

End Assignments.

(** * Beyond the claims: what [main] does in every run *)

Section EveryRun.
Context `{Env}.

Lemma keeps_bind {A B} (R : World → World → Prop) (m : M A) (k : A → M B) :
  Transitive R → keeps R m → (∀ a, keeps R (k a)) → keeps R (bind m k).
Proof.
  intros Htrans Hm Hk w. unfold bind. specialize (Hm w).
  destruct (m w) as [[a|e] w1]; simpl in *; [|exact Hm].
  etransitivity; [exact Hm | apply Hk].
Qed.

Lemma keeps_try {A} (R : World → World → Prop) (m : M A)
  (h : exn → option (M A)) :
  Transitive R → keeps R m → (∀ e c, h e = Some c → keeps R c) →
  keeps R (try_except m h).
Proof.
  intros Htrans Hm Hh w. unfold try_except. specialize (Hm w).
  destruct (m w) as [[a|e] w1]; simpl in *; [exact Hm|].
  destruct (h e) as [c|] eqn:E; [|exact Hm].
  etransitivity; [exact Hm | by apply (Hh e)].
Qed.

Lemma keeps_pure {A} (R : World → World → Prop) (o : outcome A) :
  Reflexive R → keeps R (lift o).
Proof. intros Hrefl w. apply Hrefl. Qed.

#[local] Instance touches_only_refl (q : string) :
  Reflexive (touches_only q).
Proof. intros w. by repeat split. Qed.

#[local] Instance touches_only_trans (q : string) :
  Transitive (touches_only q).
Proof.
  intros w1 w2 w3 (Ha & Hb & Hc & Hd) (Ha' & Hb' & Hc' & Hd'). repeat split.
  - intros p Hp. by rewrite Ha', Ha.
  - intros p Hp. by apply Hb', Hb.
  - congruence.
  - congruence.
Qed.

#[local] Instance no_call_refl : Reflexive no_call.
Proof. by intros w. Qed.

#[local] Instance no_call_trans : Transitive no_call.
Proof. intros w1 w2 w3 [Ha Hb] [Ha' Hb']. split; congruence. Qed.

#[local] Instance no_write_refl : Reflexive no_write.
Proof. by intros w. Qed.

#[local] Instance no_write_trans : Transitive no_write.
Proof. intros w1 w2 w3 [Ha Hb] [Ha' Hb']. split; congruence. Qed.

Lemma print_touches (q s : string) : keeps (touches_only q) (print s).
Proof. intros w. by repeat split. Qed.

Lemma print_no_call (s : string) : keeps no_call (print s).
Proof. by intros w. Qed.

Lemma print_no_write (s : string) : keeps no_write (print s).
Proof. by intros w. Qed.

Lemma after_write_touches (q s : string) (w : World) :
  touches_only q w (after_write q s w).
Proof.
  repeat split; simpl.
  - intros p Hp. by rewrite lookup_insert_ne.
  - intros p Hp. destruct (decide (q = p)) as [->|Hne].
    + by rewrite lookup_insert_eq.
    + by rewrite lookup_insert_ne.
Qed.

Lemma write_text_touches (q s : string) :
  keeps (touches_only q) (write_text q s).
Proof.
  intros w. unfold write_text.
  destruct (wdeny w !! q); [reflexivity|]. apply after_write_touches.
Qed.

Lemma write_text_no_call (p s : string) : keeps no_call (write_text p s).
Proof. intros w. unfold write_text. by destruct (wdeny w !! p). Qed.

Lemma toml_load_touches (q p : string) :
  keeps (touches_only q) (toml_load p).
Proof.
  intros w. unfold toml_load. destruct (files w !! p); [reflexivity|].
  destruct (rdeny w !! p); reflexivity.
Qed.

Lemma toml_load_no_call (p : string) : keeps no_call (toml_load p).
Proof.
  intros w. unfold toml_load. destruct (files w !! p); [done|].
  by destruct (rdeny w !! p).
Qed.

Lemma toml_dump_touches (data : dict) (q : string) :
  keeps (touches_only q) (toml_dump data q).
Proof.
  unfold toml_dump. apply keeps_bind; [apply _| |intros _].
  { intros w. unfold open_w.
    destruct (wdeny w !! q); [reflexivity|]. apply after_write_touches. }
  apply keeps_bind; [apply _|apply keeps_pure; apply _|intros text].
  intros w. apply after_write_touches.
Qed.

Lemma toml_dump_no_call (data : dict) (p : string) :
  keeps no_call (toml_dump data p).
Proof.
  unfold toml_dump. apply keeps_bind; [apply _| |intros _].
  { intros w. unfold open_w. by destruct (wdeny w !! p). }
  apply keeps_bind; [apply _|apply keeps_pure; apply _|intros text].
  by intros w.
Qed.

Lemma check_output_effect (argv : list string) (w : World) :
  calls (snd (check_output argv w)) = (calls w ++ [argv])%list
  ∧ no_write w (snd (check_output argv w))
  ∧ stdout (snd (check_output argv w)) = stdout w.
Proof.
  unfold check_output. destruct (subprocess_run argv (repo w)) as [[st out] r].
  by destruct (st =? 0)%Z.
Qed.

Lemma check_call_effect (argv : list string) (w : World) :
  calls (snd (check_call argv w)) = (calls w ++ [argv])%list
  ∧ no_write w (snd (check_call argv w))
  ∧ stdout (snd (check_call argv w)) = stdout w.
Proof.
  unfold check_call. destruct (subprocess_run argv (repo w)) as [[st out] r].
  by destruct (st =? 0)%Z.
Qed.

Lemma git_current_branch_effect (w : World) :
  calls (snd (git_current_branch w)) = (calls w ++ [symbolic_ref_argv])%list
  ∧ no_write w (snd (git_current_branch w))
  ∧ stdout (snd (git_current_branch w)) = stdout w.
Proof.
  pose proof (check_output_effect symbolic_ref_argv w) as Hco.
  unfold git_current_branch, try_except, bind.
  destruct (check_output symbolic_ref_argv w) as [[out|e] w1]; simpl in Hco.
  - unfold lift, decode. by destruct (utf8_valid (codes out)).
  - by destruct e.
Qed.

Lemma git_current_branch_is_main_effect (w : World) :
  calls (snd (git_current_branch_is_main w))
  = (calls w ++ [symbolic_ref_argv])%list
  ∧ no_write w (snd (git_current_branch_is_main w))
  ∧ stdout (snd (git_current_branch_is_main w)) = stdout w.
Proof.
  pose proof (git_current_branch_effect w) as Hb.
  unfold git_current_branch_is_main, bind.
  by destruct (git_current_branch w) as [[b|e] w1].
Qed.

Lemma write_version_file_touches (path : string) (v : Version) :
  keeps (touches_only (joinpath project_root path))
    (write_version_file path v).
Proof.
  unfold write_version_file. apply keeps_bind; [apply _| |intros _].
  - apply print_touches.
  - apply write_text_touches.
Qed.

Lemma write_version_to_pyproject_touches (path : string) (v : Version) :
  keeps (touches_only (joinpath project_root path))
    (write_version_to_pyproject path v).
Proof.
  unfold write_version_to_pyproject. apply keeps_try; [apply _| |].
  - apply keeps_bind; [apply _|apply toml_load_touches|intros data].
    apply keeps_bind; [apply _|apply keeps_pure; apply _|intros data'].
    apply toml_dump_touches.
  - intros e c Hc.
    destruct e; simplify_eq;
      (apply keeps_bind; [apply _|apply print_touches|intros _]);
      intros w; reflexivity.
Qed.

Lemma main_head_no_call (args : Namespace) : keeps no_call (main_head args).
Proof.
  unfold main_head.
  apply keeps_bind; [apply _|apply print_no_call|intros _].
  apply keeps_bind; [apply _|apply keeps_pure; apply _|intros v].
  apply keeps_bind; [apply _| |intros _].
  { unfold write_version_file.
    apply keeps_bind; [apply _|apply print_no_call|intros _].
    apply write_text_no_call. }
  apply keeps_bind; [apply _| |intros _; by intros w].
  unfold write_version_to_pyproject. apply keeps_try; [apply _| |].
  - apply keeps_bind; [apply _|apply toml_load_no_call|intros data].
    apply keeps_bind; [apply _|apply keeps_pure; apply _|intros data'].
    apply toml_dump_no_call.
  - intros e c Hc.
    destruct e; simplify_eq;
      (apply keeps_bind; [apply _|apply print_no_call|intros _]);
      by intros w.
Qed.

(** [main] is its head and then its tail. *)
Lemma main_split (args : Namespace) (w : World) :
  main args w = bind (main_head args) main_tail w.
Proof.
  unfold main, main_head, main_tail, bind.
  destruct (print greeting w) as [[[]|e] w1]; [|done].
  destruct (next_version args w1) as [[v|e] w2]; [|done].
  destruct (write_version_file VERSION_FILE_PATH v w2) as [[[]|e] w3]; [|done].
  by destruct (write_version_to_pyproject PYPROJECT_FILE_PATH v w3)
    as [[[]|e] w4].
Qed.

Lemma tag_commit_effect (tag : string) (w : World) :
  calls (snd (tag_commit tag w)) = (calls w ++ [tag_argv tag])%list
  ∧ no_write w (snd (tag_commit tag w)).
Proof.
  unfold tag_commit. erewrite bind_ret; [|reflexivity].
  destruct (check_call_effect (tag_argv tag)
              (after_print ("Applying tag '" ++ tag ++ "' to commit.") w))
    as (Hc & Hw & _).
  split; [exact Hc | exact Hw].
Qed.

Lemma push_tag_effect (tag : string) (w : World) :
  calls (snd (push_tag tag w)) = (calls w ++ [push_argv tag])%list
  ∧ no_write w (snd (push_tag tag w)).
Proof.
  unfold push_tag. erewrite bind_ret; [|reflexivity].
  destruct (check_call_effect (push_argv tag)
              (after_print ("Pushing tag '" ++ tag ++ "' to origin.") w))
    as (Hc & Hw & _).
  split; [exact Hc | exact Hw].
Qed.

Lemma main_tail_effect (v : Version) (w w' : World) (o : outcome unit) :
  main_tail v w = (o, w') →
  ∃ extra : list (list string),
    calls w' = (calls w ++ extra)%list
    ∧ extra `prefix_of` release_calls v
    ∧ (o = Ret tt → extra = release_calls v)
    ∧ no_write w w'.
Proof.
  unfold main_tail. intros Hrun.
  erewrite bind_ret in Hrun; [|reflexivity]. fold (done_printed v w) in Hrun.
  assert (Hc0 : calls (done_printed v w) = calls w) by done.
  assert (Hw0 : no_write w (done_printed v w)) by done.
  set (w0 := done_printed v w) in *. clearbody w0.
  unfold bind at 1 in Hrun.
  pose proof (git_current_branch_effect w0) as (Hc1 & Hw1 & _).
  destruct (git_current_branch w0) as [[b|e] w1]; simpl in Hc1, Hw1.
  2:{ injection Hrun as <- <-. exists [symbolic_ref_argv].
      rewrite Hc1, Hc0.
      split; [done|]. split; [by eexists|]. split; [done|].
      by etransitivity. }
  unfold bind at 1 in Hrun.
  pose proof (git_current_branch_is_main_effect w1) as (Hc2 & Hw2 & _).
  destruct (git_current_branch_is_main w1) as [[on|e] w2];
    simpl in Hc2, Hw2.
  2:{ injection Hrun as <- <-.
      exists [symbolic_ref_argv; symbolic_ref_argv].
      rewrite Hc2, Hc1, Hc0, <- app_assoc.
      split; [done|]. split; [by eexists|]. split; [done|].
      etransitivity; [exact Hw0|]. by etransitivity. }
  assert (Hw02 : no_write w w2).
  { etransitivity; [exact Hw0|]. by etransitivity. }
  assert (Hc02 : calls w2
                 = (calls w ++ [symbolic_ref_argv; symbolic_ref_argv])%list).
  { by rewrite Hc2, Hc1, Hc0, <- app_assoc. }
  clear Hc0 Hw0 Hc1 Hw1 Hc2 Hw2.
  destruct on;
    [change (negb true) with false in Hrun
    |change (negb false) with true in Hrun]; cbv iota in Hrun.
  2:{ erewrite bind_ret in Hrun; [|reflexivity].
      injection Hrun as <- <-.
      exists [symbolic_ref_argv; symbolic_ref_argv].
      split; [done|]. split; [by eexists|]. done. }
  unfold bind at 1 in Hrun.
  pose proof (tag_commit_effect (Version_str v) w2) as (Hc3 & Hw3).
  destruct (tag_commit (Version_str v) w2) as [[[]|e] w3];
    simpl in Hc3, Hw3.
  2:{ injection Hrun as <- <-.
      exists [symbolic_ref_argv; symbolic_ref_argv; tag_argv (Version_str v)].
      rewrite Hc3, Hc02, <- app_assoc.
      split; [done|]. split; [by eexists|]. split; [done|].
      by etransitivity. }
  unfold bind at 1 in Hrun.
  pose proof (push_tag_effect (Version_str v) w3) as (Hc4 & Hw4).
  destruct (push_tag (Version_str v) w3) as [[[]|e] w4];
    simpl in Hc4, Hw4.
  2:{ injection Hrun as <- <-. exists (release_calls v).
      rewrite Hc4, Hc3, Hc02, <- !app_assoc.
      split; [done|]. split; [done|]. split; [done|].
      etransitivity; [exact Hw02|]. by etransitivity. }
  unfold print_tag_release_done_message in Hrun.
  erewrite bind_ret in Hrun; [|reflexivity].
  injection Hrun as <- <-. exists (release_calls v). simpl.
  rewrite Hc4, Hc3, Hc02, <- !app_assoc.
  split; [done|]. split; [done|]. split; [done|].
  etransitivity; [exact Hw02|]. by etransitivity.
Qed.

Lemma write_version_file_denied (v : Version) (w : World) (err : oserror) :
  wdeny w !! version_file = Some err →
  write_version_file VERSION_FILE_PATH v w
  = (Raise (exn_of_oserror err),
     after_print ("this is the version file path " ++ version_file) w).
Proof.
  intros Hdeny. unfold write_version_file.
  erewrite bind_ret; [|reflexivity].
  unfold write_text. simpl. fold version_file. by rewrite Hdeny.
Qed.

(** When the head of [main] returns, every step of it went well. *)
Lemma main_head_returns (args : Namespace) (w w1 : World) (v : Version) :
  main_head args w = (Ret v, w1) →
  Version_new (ns_next_version args) = Ret v
  ∧ ∃ (content : string) (data data' : dict) (text : string),
      files w !! pyproject_file = Some content
      ∧ toml_loads content = Ret data
      ∧ update_pyproject data v = Ret data'
      ∧ toml_dumps data' = Ret text
      ∧ w1 = after_write pyproject_file text (versioned v w).
Proof.
  unfold main_head. intros Hrun.
  erewrite bind_ret in Hrun; [|reflexivity].
  unfold bind at 1 in Hrun. rewrite next_version_run in Hrun.
  destruct (Version_new (ns_next_version args)) as [v0|e]; [|done].
  unfold bind at 1 in Hrun.
  destruct (wdeny w !! version_file) as [err|] eqn:Hdv.
  { by rewrite (write_version_file_denied v0 (after_print greeting w) err Hdv)
      in Hrun. }
  rewrite (write_version_file_run VERSION_FILE_PATH v0
             (after_print greeting w) Hdv) in Hrun.
  fold version_file in Hrun. fold (versioned v0 w) in Hrun.
  unfold bind at 1 in Hrun.
  pose proof (versioned_pyproject v0 w) as Hsame.
  destruct (files w !! pyproject_file) as [content|] eqn:Hf.
  2:{ destruct (rdeny w !! pyproject_file) as [err|] eqn:Hr.
      - rewrite (write_pyproject_unreadable v0 (versioned v0 w) err Hsame Hr)
          in Hrun. by destruct err.
      - by rewrite (write_pyproject_missing v0 (versioned v0 w) Hsame Hr)
          in Hrun. }
  destruct (toml_loads content) as [data|e] eqn:Hl.
  2:{ rewrite (write_pyproject_load_error v0 _ content e Hsame Hl) in Hrun.
      by destruct e. }
  destruct (update_pyproject data v0) as [data'|e] eqn:Hu.
  2:{ rewrite (write_pyproject_update_error v0 _ content data e Hsame Hl Hu)
        in Hrun. by destruct e. }
  destruct (wdeny w !! pyproject_file) as [err|] eqn:Hdp.
  { rewrite (write_pyproject_denied v0 (versioned v0 w) content data data' err
               Hsame Hl Hu Hdp) in Hrun. by destruct err. }
  destruct (toml_dumps data') as [text|e] eqn:Hd.
  2:{ rewrite (write_pyproject_dump_error v0 (versioned v0 w) content data
                 data' e Hsame Hl Hu Hdp Hd) in Hrun. by destruct e. }
  rewrite (write_pyproject_ok v0 (versioned v0 w) content text data data'
             Hsame Hl Hu Hdp Hd) in Hrun.
  injection Hrun as <- <-. split; [done|].
  by exists content, data, data', text.
Qed.

(** X14. Whatever their outcome (a return, a [SystemExit] or any other
    exception, that of [toml.dump] on the file it has opened included),
    [write_version_file] and [write_version_to_pyproject] change no file
    but the one at the path they are given, remove no file, and run no
    child process. *)
Theorem writers_touch_only_their_file (path : string) (v : Version)
  (w w' : World) :
  w' = snd (write_version_file path v w)
  ∨ w' = snd (write_version_to_pyproject path v w) →
  (∀ p : string,
     p ≠ joinpath project_root path → files w' !! p = files w !! p)
  ∧ (∀ p : string, is_Some (files w !! p) → is_Some (files w' !! p))
  ∧ calls w' = calls w
  ∧ repo w' = repo w.
Proof.
  intros [-> | ->].
  - apply (write_version_file_touches path v w).
  - apply (write_version_to_pyproject_touches path v w).
Qed.

(** X15. In every run the child processes of [main] are a beginning of
    the list: read the branch, read the branch, [git tag], [git push],
    with the string of the version as the tag. So the tag is never pushed
    before it was made, nothing is tagged before the branch was read twice,
    and no other program is run; without a version no child process runs
    at all. *)
Theorem child_processes_in_order (args : Namespace) (w : World) :
  ∃ extra : list (list string),
    calls (snd (main args w)) = (calls w ++ extra)%list
    ∧ match Version_new (ns_next_version args) with
      | Ret v =>
          extra `prefix_of`
            [ symbolic_ref_argv; symbolic_ref_argv;
              tag_argv (Version_str v); push_argv (Version_str v) ]
      | Raise _ => extra = []
      end.
Proof.
  rewrite main_split. unfold bind.
  pose proof (main_head_no_call args w) as [Hcalls _].
  destruct (main_head args w) as [[v|e] w1] eqn:Hhead; simpl in Hcalls.
  - destruct (main_head_returns args w w1 v Hhead) as [-> _].
    destruct (main_tail v w1) as [o w'] eqn:Htail.
    destruct (main_tail_effect v w1 w' o Htail) as (extra & Hc & Hpre & _).
    exists extra. simpl. by rewrite Hc, Hcalls.
  - exists []. simpl. rewrite Hcalls, app_nil_r. split; [done|].
    destruct (Version_new (ns_next_version args)); [|done].
    by apply prefix_nil.
Qed.

(** X16. [main] returns only after a whole release: if it returns, then
    the version was accepted, the manifest was read, parsed and updated,
    [toml.dump] made a text of it, both files hold the new text, and the
    child processes that ran are exactly the two readings of the branch,
    [git tag] and [git push]. *)
Theorem main_returns_only_after_release (args : Namespace) (w w' : World) :
  main args w = (Ret tt, w') →
  ∃ (v : Version) (content : string) (data data' : dict) (text : string),
    Version_new (ns_next_version args) = Ret v
    ∧ files w !! pyproject_file = Some content
    ∧ toml_loads content = Ret data
    ∧ update_pyproject data v = Ret data'
    ∧ toml_dumps data' = Ret text
    ∧ files w' !! version_file = Some (version_file_text v)
    ∧ files w' !! pyproject_file = Some text
    ∧ calls w'
      = (calls w ++ [ symbolic_ref_argv; symbolic_ref_argv;
                      tag_argv (Version_str v);
                      push_argv (Version_str v) ])%list.
Proof.
  rewrite main_split. unfold bind. intros Hrun.
  destruct (main_head args w) as [[v|e] w1] eqn:Hhead; [|done].
  destruct (main_head_returns args w w1 v Hhead)
    as (Hv & content & data & data' & text & Hf & Hl & Hu & Hd & ->).
  destruct (main_tail_effect v _ w' (Ret tt) Hrun)
    as (extra & Hc & _ & Hall & [Hfiles _]).
  rewrite (Hall eq_refl) in Hc.
  exists v, content, data, data', text.
  split; [done|]. split; [done|]. split; [done|]. split; [done|].
  split; [done|].
  rewrite Hfiles, Hc. simpl. split.
  { rewrite lookup_insert_ne by (symmetry; apply version_file_not_pyproject).
    by rewrite lookup_insert_eq. }
  split; [by rewrite lookup_insert_eq|done].
Qed.

End EveryRun.

(** * Beyond the claims: the exit status *)


Section ExitStatus.
Context `{Env}.












End ExitStatus.

(** * Beyond the claims, on concrete worlds *)

Lemma ex_tagged_clean (branch : option string) :
  clean_manifest (ex_world_tagged branch (ex_files ex_manifest))
    ex_data ex_tool ex_poetry.
Proof. exists ex_manifest. vm_compute. repeat split; reflexivity. Defined.

Lemma ex_tagged_on_main :
  on_branch (ex_world_tagged (Some "main") (ex_files ex_manifest)) "main".
Proof. repeat split; reflexivity. Defined.

Lemma ex_offline_clean :
  clean_manifest (H := ex_env_offline)
    (ex_world_offline (Some "main") (ex_files ex_manifest))
    ex_data ex_tool ex_poetry.
Proof. exists ex_manifest. vm_compute. repeat split; reflexivity. Defined.

Lemma ex_offline_on_main :
  on_branch (H := ex_env_offline)
    (ex_world_offline (Some "main") (ex_files ex_manifest)) "main".
Proof. repeat split; reflexivity. Defined.

Lemma ex_offline_dumped :
  dumped (H := ex_env_offline) ex_data "2.4.1.dev3" = Ret ex_manifest_nightly.
Proof. reflexivity. Defined.

Lemma ex_detached (fs : gmap string string) : detached (ex_world None fs).
Proof. exists 128, "". split; [reflexivity | discriminate]. Defined.

(** X1, from [main]. *)
Lemma release_tags_then_pushes_witness :
  ∃ w' : World,
    main ex_args (ex_world (Some "main") (ex_files ex_manifest)) = (Ret tt, w')
    ∧ calls w'
      = [["git"; "symbolic-ref"; "--short"; "HEAD"];
         ["git"; "symbolic-ref"; "--short"; "HEAD"];
         ["git"; "tag"; "2.4.1.dev3"; "-m";
          "This is an internal development build"];
         ["git"; "push"; "origin"; "2.4.1.dev3"; "--tags"]]
    ∧ repo w' = {| head := Some "main"; tags := ["2.4.1.dev3"];
                   origin_tags := ["2.4.1.dev3"] |}
    ∧ files w' !! version_file
      = Some ("# this file will automatically be changed," ++ nl ++
              "# do not add anything but the version number here!" ++ nl ++
              "__version__ = " ++ dquote ++ "2.4.1.dev3" ++ dquote ++ nl)
    ∧ files w' !! pyproject_file = Some ex_manifest_nightly
    ∧ stdout w'
      = [ "The release script will temporarily change the version number to a nightly version. Let's go!";
          "this is the version file path /repo/rasa/version.py";
          "";
          (esc ++ "[94m All done - changes for rasa nightly version "
           ++ "2.4.1.dev3" ++ " are ready! " ++ esc ++ "[0m")%string;
          "";
          "Applying tag '2.4.1.dev3' to commit.";
          "Pushing tag '2.4.1.dev3' to origin.";
          "";
          (esc ++ "[94m All done - tag for version 2.4.1.dev3"
           ++ " was added and pushed to the remote " ++ esc
           ++ "[0m")%string ].
Proof.
  apply (release_tags_then_pushes (H := ex_env) "2.4.1.dev3" "2.4.1.dev3"
           (ex_world (Some "main") (ex_files ex_manifest))
           ex_data ex_tool ex_poetry ex_manifest_nightly "main" "" ""
           {| head := Some "main"; tags := ["2.4.1.dev3"];
              origin_tags := [] |}
           {| head := Some "main"; tags := ["2.4.1.dev3"];
              origin_tags := ["2.4.1.dev3"] |});
    [ reflexivity | apply ex_writable | apply ex_manifest_clean
    | apply ex_dumped | by apply ex_on_branch | by left | reflexivity
    | reflexivity ].
Defined.

(** X2, in a repository that has the tag already. *)
Lemma tag_failure_stops_before_push_witness :
  subprocess_run (tag_argv "2.4.1.dev3")
    (repo (ex_world_tagged (Some "main") (ex_files ex_manifest)))
  = (128, "", repo (ex_world_tagged (Some "main") (ex_files ex_manifest)))
  ∧ ∃ w' : World,
      main ex_args (ex_world_tagged (Some "main") (ex_files ex_manifest))
      = (Raise CalledProcessError, w')
      ∧ run_script ex_args
          (ex_world_tagged (Some "main") (ex_files ex_manifest)) = (1, w')
      ∧ calls w'
        = [["git"; "symbolic-ref"; "--short"; "HEAD"];
           ["git"; "symbolic-ref"; "--short"; "HEAD"];
           ["git"; "tag"; "2.4.1.dev3"; "-m";
            "This is an internal development build"]]
      ∧ last (stdout w') = Some "Applying tag '2.4.1.dev3' to commit."
      ∧ files w' !! version_file
        = Some ("# this file will automatically be changed," ++ nl ++
                "# do not add anything but the version number here!" ++ nl ++
                "__version__ = " ++ dquote ++ "2.4.1.dev3" ++ dquote ++ nl)
      ∧ files w' !! pyproject_file = Some ex_manifest_nightly.
Proof.
  split; [reflexivity|].
  apply (tag_failure_stops_before_push (H := ex_env) "2.4.1.dev3"
           "2.4.1.dev3"
           (ex_world_tagged (Some "main") (ex_files ex_manifest))
           ex_data ex_tool ex_poetry ex_manifest_nightly "main" "" 128
           {| head := Some "main"; tags := ["2.4.1.dev3"];
              origin_tags := [] |});
    [ reflexivity | split; reflexivity | apply ex_tagged_clean
    | apply ex_dumped | apply ex_tagged_on_main | by left | reflexivity
    | discriminate ].
Defined.

(** X3, with a remote that cannot be reached. *)
Lemma push_failure_leaves_tag_witness :
  ∃ w' : @World ex_env_offline,
    main (H := ex_env_offline) ex_args
      (ex_world_offline (Some "main") (ex_files ex_manifest))
    = (Raise CalledProcessError, w')
    ∧ run_script (H := ex_env_offline) ex_args
        (ex_world_offline (Some "main") (ex_files ex_manifest)) = (1, w')
    ∧ calls w'
      = [["git"; "symbolic-ref"; "--short"; "HEAD"];
         ["git"; "symbolic-ref"; "--short"; "HEAD"];
         ["git"; "tag"; "2.4.1.dev3"; "-m";
          "This is an internal development build"];
         ["git"; "push"; "origin"; "2.4.1.dev3"; "--tags"]]
    ∧ repo w' = {| head := Some "main"; tags := ["2.4.1.dev3"];
                   origin_tags := [] |}
    ∧ last (stdout w') = Some "Pushing tag '2.4.1.dev3' to origin.".
Proof.
  apply (push_failure_leaves_tag (H := ex_env_offline) "2.4.1.dev3"
           "2.4.1.dev3"
           (ex_world_offline (Some "main") (ex_files ex_manifest))
           ex_data ex_tool ex_poetry ex_manifest_nightly "main" "" "" 128
           {| head := Some "main"; tags := ["2.4.1.dev3"];
              origin_tags := [] |}
           {| head := Some "main"; tags := ["2.4.1.dev3"];
              origin_tags := [] |});
    [ reflexivity | split; reflexivity | apply ex_offline_clean
    | apply ex_offline_dumped | apply ex_offline_on_main | by left
    | reflexivity | reflexivity | discriminate ].
Defined.

(** X4, with a detached HEAD. *)
Lemma detached_head_is_released_witness :
  detached (ex_world None (ex_files ex_manifest))
  ∧ ∃ w' : World,
      main ex_args (ex_world None (ex_files ex_manifest)) = (Ret tt, w')
      ∧ run_script ex_args (ex_world None (ex_files ex_manifest)) = (0, w')
      ∧ calls w'
        = [["git"; "symbolic-ref"; "--short"; "HEAD"];
           ["git"; "symbolic-ref"; "--short"; "HEAD"];
           ["git"; "tag"; "2.4.1.dev3"; "-m";
            "This is an internal development build"];
           ["git"; "push"; "origin"; "2.4.1.dev3"; "--tags"]]
      ∧ repo w' = {| head := None; tags := ["2.4.1.dev3"];
                     origin_tags := ["2.4.1.dev3"] |}.
Proof.
  split; [apply ex_detached|].
  apply (detached_head_is_released (H := ex_env) "2.4.1.dev3" "2.4.1.dev3"
           (ex_world None (ex_files ex_manifest))
           ex_data ex_tool ex_poetry ex_manifest_nightly "" ""
           {| head := None; tags := ["2.4.1.dev3"]; origin_tags := [] |}
           {| head := None; tags := ["2.4.1.dev3"];
              origin_tags := ["2.4.1.dev3"] |});
    [ reflexivity | apply ex_writable | apply ex_manifest_clean
    | apply ex_dumped | apply ex_detached | reflexivity | reflexivity ].
Defined.

(** X5, on the branch [feature/x]. *)
Lemma refused_branch_transcript_witness :
  stdout (snd (main ex_args
                 (ex_world (Some "feature/x") (ex_files ex_manifest))))
  = [ "The release script will temporarily change the version number to a nightly version. Let's go!";
      "this is the version file path /repo/rasa/version.py";
      "";
      (esc ++ "[94m All done - changes for rasa nightly version 2.4.1.dev3"
       ++ " are ready! " ++ esc ++ "[0m")%string;
      "";
      (nl ++ "    You are currently not on the main branch." ++
       nl ++ "    Nightly release should only happen from main branch."
       ++ nl ++ "            ")%string ].
Proof.
  apply (refused_branch_transcript (H := ex_env) "2.4.1.dev3" "2.4.1.dev3"
           (ex_world (Some "feature/x") (ex_files ex_manifest))
           ex_data ex_tool ex_poetry ex_manifest_nightly "feature/x");
    [ reflexivity | apply ex_writable | apply ex_manifest_clean
    | apply ex_dumped | by apply ex_on_branch | discriminate | discriminate ].
Defined.

(** X6, without [--next_version]. *)
Lemma version_error_before_any_effect_witness :
  Version_new None = Raise TypeError
  ∧ main {| ns_next_version := None |}
      (ex_world (Some "main") (ex_files ex_manifest))
    = (Raise TypeError,
       after_print greeting (ex_world (Some "main") (ex_files ex_manifest)))
  ∧ files (snd (main {| ns_next_version := None |}
                  (ex_world (Some "main") (ex_files ex_manifest))))
    = ex_files ex_manifest
  ∧ calls (snd (main {| ns_next_version := None |}
                  (ex_world (Some "main") (ex_files ex_manifest)))) = []
  ∧ repo (snd (main {| ns_next_version := None |}
                 (ex_world (Some "main") (ex_files ex_manifest))))
    = {| head := Some "main"; tags := []; origin_tags := [] |}.
Proof.
  split; [reflexivity|].
  apply (version_error_before_any_effect (H := ex_env)
           {| ns_next_version := None |}
           (ex_world (Some "main") (ex_files ex_manifest)) TypeError).
  reflexivity.
Defined.

(** X7, where the directory [rasa] is missing. *)
Lemma version_file_unwritable_witness :
  ∃ w' : World,
    main ex_args ex_world_no_package_dir = (Raise FileNotFoundError, w')
    ∧ run_script ex_args ex_world_no_package_dir = (1, w')
    ∧ files w' = ex_files ex_manifest
    ∧ stdout w'
      = [greeting; "this is the version file path /repo/rasa/version.py"]
    ∧ calls w' = [].
Proof.
  apply (version_file_unwritable (H := ex_env) "2.4.1.dev3" "2.4.1.dev3"
           ex_world_no_package_dir ENOENT); reflexivity.
Defined.

(** X8, with a read-only manifest. *)
Lemma manifest_unwritable_witness :
  write_version_to_pyproject PYPROJECT_FILE_PATH "2.4.1.dev3"
    ex_world_read_only
  = (Raise PermissionError, ex_world_read_only)
  ∧ files (snd (write_version_to_pyproject PYPROJECT_FILE_PATH "2.4.1.dev3"
                  ex_world_read_only))
    = ex_files ex_manifest.
Proof.
  apply (manifest_unwritable (H := ex_env) "2.4.1.dev3" ex_world_read_only
           ex_data ex_tool ex_poetry EACCES).
  - exists ex_manifest. vm_compute. repeat split; reflexivity.
  - reflexivity.
Defined.

(** X9, with [tool = "poetry"] in the manifest. *)
Lemma non_table_reported_as_not_found_witness :
  toml_loads ex_manifest_tool_string = Ret [("tool", VStr "poetry")]
  ∧ write_version_to_pyproject PYPROJECT_FILE_PATH "2.4.1.dev3"
      (ex_world (Some "main") (ex_files ex_manifest_tool_string))
    = (Raise (SystemExit 1),
       after_print "Unable to update /repo/pyproject.toml: file not found."
         (ex_world (Some "main") (ex_files ex_manifest_tool_string)))
  ∧ files (snd (write_version_to_pyproject PYPROJECT_FILE_PATH "2.4.1.dev3"
                  (ex_world (Some "main")
                     (ex_files ex_manifest_tool_string))))
      !! pyproject_file = Some ex_manifest_tool_string.
Proof.
  split; [reflexivity|].
  apply (non_table_reported_as_not_found (H := ex_env) "2.4.1.dev3"
           (ex_world (Some "main") (ex_files ex_manifest_tool_string))
           ex_manifest_tool_string [("tool", VStr "poetry")] (VStr "poetry"));
    [ reflexivity | reflexivity | reflexivity | by left ].
Defined.

(** X10, with a manifest that is not UTF-8. *)
Lemma other_load_errors_propagate_witness :
  toml_loads ex_manifest_not_utf8 = Raise UnicodeDecodeError
  ∧ write_version_to_pyproject PYPROJECT_FILE_PATH "2.4.1.dev3"
      (ex_world (Some "main") (ex_files ex_manifest_not_utf8))
    = (Raise UnicodeDecodeError,
       ex_world (Some "main") (ex_files ex_manifest_not_utf8)).
Proof.
  split; [reflexivity|].
  apply (other_load_errors_propagate (H := ex_env) "2.4.1.dev3"
           (ex_world (Some "main") (ex_files ex_manifest_not_utf8))
           ex_manifest_not_utf8 UnicodeDecodeError);
    [ reflexivity | reflexivity | discriminate | discriminate | discriminate ].
Defined.

(** X11, on a branch whose name git prints in Latin-1. *)
Lemma undecodable_branch_raises_witness :
  utf8_valid (codes (ex_branch_latin1 ++ nl)) = false
  ∧ git_current_branch (ex_world (Some ex_branch_latin1) ∅)
    = (Raise UnicodeDecodeError,
       after_call symbolic_ref_argv
         (repo (ex_world (Some ex_branch_latin1) ∅))
         (ex_world (Some ex_branch_latin1) ∅))
  ∧ git_current_branch_is_main (ex_world (Some ex_branch_latin1) ∅)
    = (Raise UnicodeDecodeError,
       after_call symbolic_ref_argv
         (repo (ex_world (Some ex_branch_latin1) ∅))
         (ex_world (Some ex_branch_latin1) ∅)).
Proof.
  split; [reflexivity|].
  apply (undecodable_branch_raises (H := ex_env)
           (ex_world (Some ex_branch_latin1) ∅) (ex_branch_latin1 ++ nl));
    reflexivity.
Defined.

(** X14, on the rewrite that fails with the manifest open. *)
Lemma writers_touch_only_their_file_witness :
  (∀ p : string,
     p ≠ joinpath project_root PYPROJECT_FILE_PATH →
     files (snd (write_version_to_pyproject PYPROJECT_FILE_PATH "2.4.1.dev3"
                   (ex_world (Some "main") (ex_files ex_manifest_nbsp))))
       !! p
     = files (ex_world (Some "main") (ex_files ex_manifest_nbsp)) !! p)
  ∧ (∀ p : string,
       is_Some (files (ex_world (Some "main") (ex_files ex_manifest_nbsp))
                  !! p) →
       is_Some
         (files (snd (write_version_to_pyproject PYPROJECT_FILE_PATH
                        "2.4.1.dev3"
                        (ex_world (Some "main") (ex_files ex_manifest_nbsp))))
            !! p))
  ∧ calls (snd (write_version_to_pyproject PYPROJECT_FILE_PATH "2.4.1.dev3"
                  (ex_world (Some "main") (ex_files ex_manifest_nbsp))))
    = calls (ex_world (Some "main") (ex_files ex_manifest_nbsp))
  ∧ repo (snd (write_version_to_pyproject PYPROJECT_FILE_PATH "2.4.1.dev3"
                 (ex_world (Some "main") (ex_files ex_manifest_nbsp))))
    = repo (ex_world (Some "main") (ex_files ex_manifest_nbsp)).
Proof.
  apply (writers_touch_only_their_file (H := ex_env) PYPROJECT_FILE_PATH
           "2.4.1.dev3" (ex_world (Some "main") (ex_files ex_manifest_nbsp))).
  right. reflexivity.
Defined.

Lemma ex_nbsp_clean :
  clean_manifest (ex_world (Some "main") (ex_files ex_manifest_nbsp))
    ex_data_nbsp
    [("poetry",
      VDict [("name", VStr "rasa");
             ("description", VStr (nbsp ++ "nightly builds"))])]
    [("name", VStr "rasa");
     ("description", VStr (nbsp ++ "nightly builds"))].
Proof. exists ex_manifest_nbsp. vm_compute. repeat split; reflexivity. Defined.

(** X18, on a manifest with a description that begins with a no-break
    space. *)
Lemma dump_failure_empties_manifest_witness :
  dumped ex_data_nbsp "2.4.1.dev3" = Raise IndexError
  ∧ files (snd (write_version_to_pyproject PYPROJECT_FILE_PATH "2.4.1.dev3"
                  (ex_world (Some "main") (ex_files ex_manifest_nbsp))))
      !! pyproject_file = Some ""
  ∧ fst (write_version_to_pyproject PYPROJECT_FILE_PATH "2.4.1.dev3"
           (ex_world (Some "main") (ex_files ex_manifest_nbsp)))
    = Raise IndexError
  ∧ stdout (snd (write_version_to_pyproject PYPROJECT_FILE_PATH "2.4.1.dev3"
                   (ex_world (Some "main") (ex_files ex_manifest_nbsp))))
    = [].
Proof.
  split; [reflexivity|].
  apply (dump_failure_empties_manifest (H := ex_env) "2.4.1.dev3"
           (ex_world (Some "main") (ex_files ex_manifest_nbsp))
           ex_data_nbsp _ _ IndexError ex_nbsp_clean);
    reflexivity.
Defined.

(** X19, with a directory where the manifest should be. *)
Lemma unreadable_manifest_witness :
  write_version_to_pyproject PYPROJECT_FILE_PATH "2.4.1.dev3"
    ex_world_manifest_dir
  = (Raise IsADirectoryError, ex_world_manifest_dir)
  ∧ files (snd (write_version_to_pyproject PYPROJECT_FILE_PATH "2.4.1.dev3"
                  ex_world_manifest_dir))
    = files ex_world_manifest_dir.
Proof.
  apply (unreadable_manifest (H := ex_env) "2.4.1.dev3" ex_world_manifest_dir
           EISDIR); reflexivity.
Defined.

(** X12, for 2.4.1.dev3 and then 2.4.1.dev4. *)
Lemma update_pyproject_again_witness :
  update_pyproject ex_data "2.4.1.dev3"
  = Ret (nightly_data ex_data ex_tool ex_poetry "2.4.1.dev3")
  ∧ update_pyproject (nightly_data ex_data ex_tool ex_poetry "2.4.1.dev3")
      "2.4.1.dev4"
    = update_pyproject ex_data "2.4.1.dev4"
  ∧ update_pyproject (nightly_data ex_data ex_tool ex_poetry "2.4.1.dev3")
      "2.4.1.dev3"
    = Ret (nightly_data ex_data ex_tool ex_poetry "2.4.1.dev3").
Proof.
  split; [reflexivity|].
  apply (update_pyproject_again (H := ex_env) ex_data
           (nightly_data (H := ex_env) ex_data ex_tool ex_poetry "2.4.1.dev3")
           "2.4.1.dev3" "2.4.1.dev4").
  reflexivity.
Defined.

(** X13: [name] and [version] are there, [packages] comes last. *)
Lemma update_pyproject_key_order_witness :
  ∃ tool' poetry',
    dict_get "tool" (nightly_data ex_data ex_tool ex_poetry "2.4.1.dev3")
    = Some (VDict tool')
    ∧ dict_get "poetry" tool' = Some (VDict poetry')
    ∧ map fst (nightly_data ex_data ex_tool ex_poetry "2.4.1.dev3")
      = ["build-system"; "tool"]
    ∧ map fst tool' = ["poetry"]
    ∧ map fst poetry' = ["name"; "version"; "license"; "packages"].
Proof.
  apply (update_pyproject_key_order (H := ex_env) ex_data
           (nightly_data (H := ex_env) ex_data ex_tool ex_poetry "2.4.1.dev3")
           ex_tool ex_poetry "2.4.1.dev3"); reflexivity.
Defined.

Lemma ex_release_run :
  main ex_args (ex_world (Some "main") (ex_files ex_manifest))
  = (Ret tt,
     released "2.4.1.dev3"
       {| head := Some "main"; tags := ["2.4.1.dev3"]; origin_tags := [] |}
       {| head := Some "main"; tags := ["2.4.1.dev3"];
          origin_tags := ["2.4.1.dev3"] |}
       (after_write pyproject_file ex_manifest_nightly
          (versioned "2.4.1.dev3"
             (ex_world (Some "main") (ex_files ex_manifest))))).
Proof.
  unfold ex_args.
  rewrite (main_manifest_written (H := ex_env) "2.4.1.dev3" "2.4.1.dev3"
             (ex_world (Some "main") (ex_files ex_manifest))
             ex_data ex_tool ex_poetry ex_manifest_nightly eq_refl
             (ex_writable _ _) (ex_manifest_clean _) ex_dumped).
  apply (tail_on_branch (H := ex_env) "2.4.1.dev3" _ "main" "" "");
    [ by apply ex_on_branch | by left | reflexivity | reflexivity ].
Qed.

(** X16, on the release from [main]. *)
Lemma main_returns_only_after_release_witness :
  ∃ (v : Version) (content : string) (data data' : dict) (text : string),
    Version_new (Some "2.4.1.dev3") = Ret v
    ∧ ex_files ex_manifest !! pyproject_file = Some content
    ∧ toml_loads content = Ret data
    ∧ update_pyproject data v = Ret data'
    ∧ toml_dumps data' = Ret text
    ∧ files
        (released "2.4.1.dev3"
           {| head := Some "main"; tags := ["2.4.1.dev3"];
              origin_tags := [] |}
           {| head := Some "main"; tags := ["2.4.1.dev3"];
              origin_tags := ["2.4.1.dev3"] |}
           (after_write pyproject_file ex_manifest_nightly
              (versioned "2.4.1.dev3"
                 (ex_world (Some "main") (ex_files ex_manifest)))))
        !! version_file = Some (version_file_text v)
    ∧ files
        (released "2.4.1.dev3"
           {| head := Some "main"; tags := ["2.4.1.dev3"];
              origin_tags := [] |}
           {| head := Some "main"; tags := ["2.4.1.dev3"];
              origin_tags := ["2.4.1.dev3"] |}
           (after_write pyproject_file ex_manifest_nightly
              (versioned "2.4.1.dev3"
                 (ex_world (Some "main") (ex_files ex_manifest)))))
        !! pyproject_file = Some text
    ∧ calls
        (released "2.4.1.dev3"
           {| head := Some "main"; tags := ["2.4.1.dev3"];
              origin_tags := [] |}
           {| head := Some "main"; tags := ["2.4.1.dev3"];
              origin_tags := ["2.4.1.dev3"] |}
           (after_write pyproject_file ex_manifest_nightly
              (versioned "2.4.1.dev3"
                 (ex_world (Some "main") (ex_files ex_manifest)))))
      = [ symbolic_ref_argv; symbolic_ref_argv;
          tag_argv (Version_str v); push_argv (Version_str v) ].
Proof.
  apply (main_returns_only_after_release (H := ex_env) ex_args
           (ex_world (Some "main") (ex_files ex_manifest)) _ ex_release_run).
Defined.




